(** * mlmbackend: admin controllers, user model and admin route table

    A shallow embedding of
      - models/user.model.js            (schemas, pre-save hook, token issuers)
      - src/controllers/admin.controller.js  (catalog and withdrawal handlers)
      - routes/admin.routes.js          (the admin route table)
    Handlers are functions from a request and the collections they touch to
    an outcome (a response, or a thrown exception) and the new collections. *)

From Stdlib Require Import ZArith String Ascii List Bool Lia.
From stdpp Require Import base option strings gmap.
Import ListNotations.

Local Open Scope string_scope.
Local Open Scope list_scope.
Local Open Scope Z_scope.

(** ** JavaScript values as they arrive in a parsed request body *)

Inductive jsval :=
| JUndefined
| JNull
| JBool (b : bool)
| JNum (n : Z)
| JStr (s : string)
| JObj.                       (* a nested object or array; always truthy *)

(** [!v] is [negb (truthy v)]. *)
Definition truthy (v : jsval) : bool :=
  match v with
  | JUndefined | JNull => false
  | JBool b => b
  | JNum n => negb (n =? 0)
  | JStr s => negb (s =? EmptyString)%string
  | JObj => true
  end.

(** [v === lit] for a string literal [lit]. *)
Definition strict_eq_str (v : jsval) (lit : string) : bool :=
  match v with
  | JStr s => (s =? lit)%string
  | _ => false
  end.

(** [typeof v === 'string'] *)
Definition is_string (v : jsval) : bool :=
  match v with JStr _ => true | _ => false end.

(** Strings hold the UTF-8 encoding of the JavaScript string. The white
    space of [String.prototype.trim] is WhiteSpace and LineTerminator of
    ECMAScript: U+0009 to U+000D and U+0020 in one byte, U+00A0 in two, and
    U+1680, U+2000 to U+200A, U+2028, U+2029, U+202F, U+205F, U+3000 and
    U+FEFF in three. *)
Definition is_ws (c : ascii) : bool :=
  let n := nat_of_ascii c in
  ((9 <=? n)%nat && (n <=? 13)%nat) || (n =? 32)%nat.

Definition is_ws2 (c1 c2 : ascii) : bool :=
  (nat_of_ascii c1 =? 194)%nat && (nat_of_ascii c2 =? 160)%nat.

Definition is_ws3 (c1 c2 c3 : ascii) : bool :=
  let n1 := nat_of_ascii c1 in
  let n2 := nat_of_ascii c2 in
  let n3 := nat_of_ascii c3 in
  ((n1 =? 225) && (n2 =? 154) && (n3 =? 128))%nat
  || ((n1 =? 226) && (n2 =? 128)
      && (((128 <=? n3) && (n3 <=? 138)) || (n3 =? 168) || (n3 =? 169) || (n3 =? 175)))%nat
  || ((n1 =? 226) && (n2 =? 129) && (n3 =? 159))%nat
  || ((n1 =? 227) && (n2 =? 128) && (n3 =? 128))%nat
  || ((n1 =? 239) && (n2 =? 187) && (n3 =? 191))%nat.

(** The string is a sequence of white space characters and nothing else. *)
Fixpoint all_ws (s : string) : bool :=
  match s with
  | EmptyString => true
  | String c1 r1 =>
      if is_ws c1 then all_ws r1
      else
        match r1 with
        | EmptyString => false
        | String c2 r2 =>
            if is_ws2 c1 c2 then all_ws r2
            else
              match r2 with
              | EmptyString => false
              | String c3 r3 => if is_ws3 c1 c2 c3 then all_ws r3 else false
              end
        end
  end.

(** Leading white space characters are dropped. *)
Fixpoint trim_left (s : string) : string :=
  match s with
  | EmptyString => EmptyString
  | String c1 r1 =>
      if is_ws c1 then trim_left r1
      else
        match r1 with
        | EmptyString => s
        | String c2 r2 =>
            if is_ws2 c1 c2 then trim_left r2
            else
              match r2 with
              | EmptyString => s
              | String c3 r3 => if is_ws3 c1 c2 c3 then trim_left r3 else s
              end
        end
  end.

(** Trailing white space characters are dropped: the string is cut where
    what follows is white space only. *)
Fixpoint trim_right (s : string) : string :=
  match s with
  | EmptyString => EmptyString
  | String c s' => if all_ws s then EmptyString else String c (trim_right s')
  end.

Definition trim (s : string) : string := trim_right (trim_left s).

(** ** Exceptions and outcomes *)

(** [ApiError] carries the two constructor arguments the controllers pass
    (status code and message); the other constructors are the exceptions the
    JavaScript runtime and Mongoose raise by themselves. *)
Inductive exn :=
| ApiError (statusCode : Z) (message : string)
| TypeError (message : string)
| CastError
| MongooseValidationError (path : string).

Inductive outcome (A : Type) :=
| Returned (a : A)
| Thrown (e : exn).
Arguments Returned {A} a.
Arguments Thrown {A} e.

(** Modelled from the spec: the error taxonomy of section 7, which names an
    error by its HTTP status (the classes of utils/ApiError.js are not among
    the sources). *)
Inductive errorKind := ValidationError | AuthError | NotFoundError | ServerError.

Definition errorKind_of_status (code : Z) : errorKind :=
  if code =? 400 then ValidationError
  else if code =? 401 then AuthError
  else if code =? 404 then NotFoundError
  else ServerError.

Definition errorKind_of (e : exn) : errorKind :=
  match e with
  | ApiError code _ => errorKind_of_status code
  | _ => ServerError
  end.

(** ** The withdrawal request schema (models/user.model.js) *)

Record withdrawalRequest := mkWithdrawal {
  w_id : string;               (* _id, as its hexadecimal string *)
  address : string;
  amount : Z;
  finalAmount : Z;
  w_username : string;
  mobile : string;
  dateTime : Z;
  status : string
}.

(** [enum: ['Pending', 'Approved', 'Rejected']] *)
Definition statusEnum : list string := ["Pending"; "Approved"; "Rejected"].

(** [default: 'Pending'] *)
Definition statusDefault : string := "Pending".

Definition in_enum (s : string) (e : list string) : bool :=
  existsb (String.eqb s) e.

(** The four states of the specification's data model. *)
Definition specStatusDomain : list string :=
  ["Pending"; "Approved"; "Rejected"; "Cancelled by Admin"].

(** What a caller hands to [withdrawalRequestAmount.create]; [None] is a path
    the caller left undefined. *)
Record withdrawalInput := mkWithdrawalInput {
  in_address : option string;
  in_amount : option Z;
  in_finalAmount : option Z;
  in_username : option string;
  in_mobile : option string;
  in_dateTime : option Z;
  in_status : option string
}.

(** [required: true] on a String path rejects undefined and the empty string. *)
Definition required_string (path : string) (v : option string) : outcome string :=
  match v with
  | Some s => if (s =? EmptyString)%string then Thrown (MongooseValidationError path) else Returned s
  | None => Thrown (MongooseValidationError path)
  end.

Definition required_number (path : string) (v : option Z) : outcome Z :=
  match v with
  | Some n => Returned n
  | None => Thrown (MongooseValidationError path)
  end.

Definition bind {A B} (o : outcome A) (k : A -> outcome B) : outcome B :=
  match o with
  | Returned a => k a
  | Thrown e => Thrown e
  end.

Notation "'let!' x ':=' e 'in' k" := (bind e (fun x => k))
  (at level 10, x name, e at level 100, k at level 200).

(** Building and validating a document: defaults fill the undefined paths,
    then the validators of the schema run. [now] is [Date.now()] and [oid]
    the identifier Mongoose generates. *)
Definition newWithdrawalRequest (now : Z) (oid : string) (i : withdrawalInput)
  : outcome withdrawalRequest :=
  let dt := default now (in_dateTime i) in
  let st := default statusDefault (in_status i) in
  let! a := required_string "address" (in_address i) in
  let! am := required_number "amount" (in_amount i) in
  let! fa := required_number "finalAmount" (in_finalAmount i) in
  let! un := required_string "username" (in_username i) in
  let! mo := required_string "mobile" (in_mobile i) in
  if in_enum st statusEnum
  then Returned (mkWithdrawal oid a am fa un mo dt st)
  else Thrown (MongooseValidationError "status").

(** A collection is the sequence of its documents. *)
Definition withdrawalCreate (now : Z) (oid : string) (i : withdrawalInput)
    (db : list withdrawalRequest) : outcome withdrawalRequest * list withdrawalRequest :=
  match newWithdrawalRequest now oid i with
  | Returned w => (Returned w, db ++ [w])
  | Thrown e => (Thrown e, db)
  end.

Fixpoint findById (oid : string) (db : list withdrawalRequest) : option withdrawalRequest :=
  match db with
  | [] => None
  | w :: rest => if (w_id w =? oid)%string then Some w else findById oid rest
  end.

Definition set_status (st : string) (w : withdrawalRequest) : withdrawalRequest :=
  mkWithdrawal (w_id w) (address w) (amount w) (finalAmount w)
               (w_username w) (mobile w) (dateTime w) st.

(** The write of [findByIdAndUpdate(id, { status })]: the first document with
    that [_id] gets the new status. Update validators are off unless asked
    for, and the controller does not ask: the enum is not consulted. *)
Fixpoint updateStatusById (oid st : string) (db : list withdrawalRequest)
  : list withdrawalRequest :=
  match db with
  | [] => []
  | w :: rest =>
      if (w_id w =? oid)%string then set_status st w :: rest
      else w :: updateStatusById oid st rest
  end.

(** ** Requests and responses *)

(** [req.body] after the body parser, and [req.files] after multer: for each
    form field, the paths of the files stored for it. *)
Record request := mkRequest {
  body : gmap string jsval;
  files : option (gmap string (list string))
}.

(** A destructured body field: undefined when the key is absent. *)
Definition body_field (req : request) (k : string) : jsval :=
  default JUndefined (body req !! k).

(** [req.files?.field?.[0]?.path] *)
Definition file_path (req : request) (field : string) : option string :=
  fs ← files req; l ← fs !! field; head l.

(** Catalog documents; the fields hold what the controller passes on. *)
Record product := mkProduct {
  p_id : string;
  productName : jsval;
  level : jsval;
  ratioBetween : jsval;
  price : jsval;
  productImg : jsval
}.

Record event := mkEvent {
  e_id : string;
  title : jsval;
  startDate : jsval;
  endDate : jsval;
  description : jsval;
  eventImg : jsval
}.

Record slider := mkSlider {
  s_id : string;
  sliderImg : jsval
}.

Inductive data :=
| DEmptyObject
| DNull
| DWithdrawal (w : withdrawalRequest)
| DWithdrawals (ws : list withdrawalRequest)
| DProduct (p : option product)
| DEvent (e : option event)
| DSlider (s : slider).

(** Modelled from the spec: the response envelope of section 6, as the
    arguments the controllers give to [new ApiResponse(statusCode, data,
    message)] (utils/ApiResponse.js is not among the sources). *)
Record ApiResponse := mkApiResponse {
  statusCode : Z;
  payload : data;
  message : string
}.

(** What [res.json] serialises: an envelope, or a bare number where the
    controller writes [res.json(400, {}, msg)] and the first argument is the
    one sent. *)
Inductive jsonBody :=
| JsonApi (r : ApiResponse)
| JsonNum (n : Z).

(** [res.status(code).json(b)] *)
Record response := mkResponse {
  http_status : Z;
  http_body : jsonBody
}.

Definition respond (code : Z) (d : data) (msg : string) : response :=
  mkResponse code (JsonApi (mkApiResponse code d msg)).

(** The object the image host answers with; only [url] is read. *)
Record cloudinaryResponse := mkCloudinaryResponse { url : jsval }.

(** ** Withdrawal handlers (src/controllers/admin.controller.js) *)

(** A double quote, for the messages that contain one. *)
Definition dquote : string := String (ascii_of_nat 34) EmptyString.

Definition invalidStatusMessage : string :=
  "Invalid status value. Status must be either " +:+ dquote +:+ "Rejected" +:+ dquote
  +:+ " or " +:+ dquote +:+ "Cancelled by Admin" +:+ dquote.

Section Controllers.

(** Mongoose's cast of a value to an ObjectId: [None] when it raises
    CastError. *)
Variable castObjectId : jsval -> option string.

(** The identifier given to a new document, from those in the collection. *)
Variable newObjectId : list string -> string.

(** utils/cloudinary.js: the answer of the image host for a local path,
    [None] being [null]. *)
Variable uploadOnCloudinary : string -> option cloudinaryResponse.

(** models/admin.model.js: validation and casting of a new document. *)
Variable productSchema : product -> outcome product.
Variable eventSchema : event -> outcome event.
Variable sliderSchema : slider -> outcome slider.

(** The value a String path stores for an update value. Only strings reach
    the update below. *)
Definition castString (v : jsval) : option string :=
  match v with
  | JStr s => Some s
  | _ => None
  end.

(** [withdrawalRequestAmount.findByIdAndUpdate(id, { status }, { new: true })]:
    the updated document, or [null] when no document has that id. *)
Definition findByIdAndUpdateStatus (id st : jsval) (db : list withdrawalRequest)
  : outcome (option withdrawalRequest) * list withdrawalRequest :=
  match castObjectId id, castString st with
  | Some oid, Some s =>
      let db' := updateStatusById oid s db in
      (Returned (findById oid db'), db')
  | _, _ => (Thrown CastError, db)
  end.

Definition updateWithdrawalStatusByAdmin (req : request) (db : list withdrawalRequest)
  : outcome response * list withdrawalRequest :=
  let id := body_field req "id" in
  let status := body_field req "status" in
  if negb (truthy id) then
    (Thrown (ApiError 400 "Withdrawal request ID is required"), db)
  else if negb (truthy status) then
    (Thrown (ApiError 400 "Status is required"), db)
  else if negb (strict_eq_str status "Approved")
          && negb (strict_eq_str status "Cancelled by Admin") then
    (Thrown (ApiError 400 invalidStatusMessage), db)
  else
    match findByIdAndUpdateStatus id status db with
    | (Thrown e, db') => (Thrown e, db')
    | (Returned None, db') => (Thrown (ApiError 404 "Withdrawal request not found"), db')
    | (Returned (Some withdrawalRequest), db') =>
        (Returned (respond 200 (DWithdrawal withdrawalRequest)
           ("Withdrawal request " +:+ default EmptyString (castString status) +:+ " successfully")), db')
    end.

(** [withdrawalRequestAmount.find()] *)
Definition withdrawalFind (db : list withdrawalRequest) : outcome (list withdrawalRequest) :=
  Returned db.

Definition getAllUserWithdrawalsForAdmin (db : list withdrawalRequest) : response :=
  match withdrawalFind db with
  | Returned withdrawals =>
      if (length withdrawals =? 0)%nat then
        respond 404 (DWithdrawals []) "No withdrawal requests found"
      else
        respond 200 (DWithdrawals withdrawals) "Withdrawal requests retrieved successfully"
  | Thrown _ => respond 500 DNull "Server error"
  end.

(** *** Catalog handlers *)

(** [typeof field === 'string'] and [field.trim()] is the empty string. *)
Definition blank (field : jsval) : bool :=
  is_string field &&
  match field with
  | JStr s => (trim s =? EmptyString)%string
  | _ => false
  end.

Fixpoint findProductById (oid : string) (db : list product) : option product :=
  match db with
  | [] => None
  | p :: rest => if (p_id p =? oid)%string then Some p else findProductById oid rest
  end.

Fixpoint findEventById (oid : string) (db : list event) : option event :=
  match db with
  | [] => None
  | e :: rest => if (e_id e =? oid)%string then Some e else findEventById oid rest
  end.

Fixpoint findSliderById (oid : string) (db : list slider) : option slider :=
  match db with
  | [] => None
  | x :: rest => if (s_id x =? oid)%string then Some x else findSliderById oid rest
  end.

(** [Admin.create(doc)] *)
Definition productCreate (doc : product) (db : list product)
  : outcome product * list product :=
  match productSchema doc with
  | Returned p => (Returned p, db ++ [p])
  | Thrown e => (Thrown e, db)
  end.

Definition eventCreate (doc : event) (db : list event) : outcome event * list event :=
  match eventSchema doc with
  | Returned e => (Returned e, db ++ [e])
  | Thrown x => (Thrown x, db)
  end.

Definition sliderCreate (doc : slider) (db : list slider) : outcome slider * list slider :=
  match sliderSchema doc with
  | Returned x => (Returned x, db ++ [x])
  | Thrown e => (Thrown e, db)
  end.

Definition addProduct (req : request) (db : list product)
  : outcome response * list product :=
  let productName := body_field req "product_name" in
  let level := body_field req "level" in
  let ratioBetween := body_field req "ratio_between" in
  let price := body_field req "price" in
  if existsb blank [productName; level; ratioBetween] then
    (Returned (mkResponse 400 (JsonNum 400)), db)
  else
    match file_path req "productImg" with
    | None | Some EmptyString => (Returned (mkResponse 401 (JsonNum 401)), db)
    | Some productImgPath =>
        match uploadOnCloudinary productImgPath with
        | None => (Returned (mkResponse 401 (JsonNum 401)), db)
        | Some productImgObj =>
            match productCreate
                    (mkProduct (newObjectId (map p_id db)) productName level
                               ratioBetween price (url productImgObj)) db with
            | (Thrown e, db') => (Thrown e, db')
            | (Returned product, db') =>
                let addedProduct := findProductById (p_id product) db' in
                (Returned (respond 200 (DProduct addedProduct)
                                   "Product added successfully"), db')
            end
        end
    end.

Definition addEvent (req : request) (db : list event)
  : outcome response * list event :=
  let title := body_field req "title" in
  let startDate := body_field req "start_date" in
  let endDate := body_field req "end_date" in
  let description := body_field req "description" in
  let eventImgPath := file_path req "eventImg" in
  if existsb blank [title; startDate; endDate; description] then
    (Returned (mkResponse 400 (JsonNum 400)), db)
  else
    match eventImgPath with
    | None | Some EmptyString => (Thrown (ApiError 400 "Event Image is required"), db)
    | Some eventImgPath =>
        match uploadOnCloudinary eventImgPath with
        | None => (Thrown (ApiError 400 "Event file is required"), db)
        | Some eventImgObj =>
            match eventCreate
                    (mkEvent (newObjectId (map e_id db)) title startDate endDate
                             description (url eventImgObj)) db with
            | (Thrown e, db') => (Thrown e, db')
            | (Returned event, db') =>
                let addedEvent := findEventById (e_id event) db' in
                (Returned (respond 200 (DEvent addedEvent)
                                   "Event added successfully"), db')
            end
        end
    end.

Definition uploadSliderImage (req : request) (db : list slider)
  : outcome response * list slider :=
  match file_path req "sliderImg" with
  | None | Some EmptyString => (Thrown (ApiError 400 "Slider Image is required"), db)
  | Some sliderImgPath =>
      match uploadOnCloudinary sliderImgPath with
      | None => (Thrown (ApiError 400 "Slider file is required"), db)
      | Some sliderImgObj =>
          match sliderCreate
                  (mkSlider (newObjectId (map s_id db)) (url sliderImgObj)) db with
          | (Thrown e, db') => (Thrown e, db')
          | (Returned slider, db') =>
              (Returned (respond 200 (DSlider slider)
                                 "Slider image uploaded successfully"), db')
          end
      end
  end.

(** The write of [Slider.findByIdAndUpdate(id, { sliderImg })]. *)
Fixpoint updateSliderById (oid : string) (img : jsval) (db : list slider) : list slider :=
  match db with
  | [] => []
  | x :: rest =>
      if (s_id x =? oid)%string then mkSlider (s_id x) img :: rest
      else x :: updateSliderById oid img rest
  end.

Definition updateSliderImage (req : request) (db : list slider)
  : outcome response * list slider :=
  let id := body_field req "id" in
  if negb (truthy id) then (Thrown (ApiError 400 "Slider ID is required"), db)
  else
    match file_path req "sliderImg" with
    | None | Some EmptyString => (Thrown (ApiError 400 "Slider Image is required for update"), db)
    | Some sliderImgPath =>
        match uploadOnCloudinary sliderImgPath with
        | None => (Thrown (ApiError 400 "Slider file upload failed"), db)
        | Some sliderImgObj =>
            match castObjectId id with
            | None => (Thrown CastError, db)
            | Some oid =>
                let db' := updateSliderById oid (url sliderImgObj) db in
                match findSliderById oid db' with
                | None => (Thrown (ApiError 404 "Slider image not found"), db')
                | Some updatedSlider =>
                    (Returned (respond 200 (DSlider updatedSlider)
                                       "Slider image updated successfully"), db')
                end
            end
        end
    end.

(** The write of [Events.findByIdAndUpdate(eventId, { $set: { ... } })]. *)
Fixpoint updateEventById (oid : string) (t sd ed d img : jsval) (db : list event)
  : list event :=
  match db with
  | [] => []
  | e :: rest =>
      if (e_id e =? oid)%string then mkEvent (e_id e) t sd ed d img :: rest
      else e :: updateEventById oid t sd ed d img rest
  end.

(** [eventImgObj.url] is read without a test of [eventImgObj]: on [null]
    the property access raises TypeError. *)
Definition updateEvent (req : request) (db : list event)
  : outcome response * list event :=
  let eventId := body_field req "event_id" in
  let title := body_field req "title" in
  let startDate := body_field req "start_date" in
  let endDate := body_field req "end_date" in
  let description := body_field req "description" in
  let eventImgPath := file_path req "eventImg" in
  if negb (truthy eventId) then (Thrown (ApiError 400 "Event id not found"), db)
  else if negb (truthy startDate) || negb (truthy endDate)
          || negb (truthy description) || negb (truthy title) then
    (Thrown (ApiError 400 "All Fields are required"), db)
  else
    match eventImgPath with
    | None | Some EmptyString => (Thrown (ApiError 400 "Event image is missing"), db)
    | Some eventImgPath =>
        match uploadOnCloudinary eventImgPath with
        | None =>
            (Thrown (TypeError "Cannot read properties of null (reading 'url')"), db)
        | Some eventImgObj =>
            if negb (truthy (url eventImgObj)) then
              (Thrown (ApiError 400 "Error while uploading Event Image"), db)
            else
              match castObjectId eventId with
              | None => (Thrown CastError, db)
              | Some oid =>
                  let db' := updateEventById oid title startDate endDate description
                                             (url eventImgObj) db in
                  let updatedEvent := findEventById oid db' in
                  (Returned (respond 200 (DEvent updatedEvent)
                                     "Event Details updated successfully"), db')
              end
        end
    end.

End Controllers.

(** ** The user schema (models/user.model.js) *)

Record user := mkUser {
  u_id : string;
  username : string;
  email : string;
  fullName : string;
  mobileNo : Z;
  password : string;
  sharedId : option string;
  refreshToken : option string;
  avatar : option string;
  otp : option Z;
  otp_validity : option Z;
  currency : option string
}.

Definition set_password (pw : string) (u : user) : user :=
  mkUser (u_id u) (username u) (email u) (fullName u) (mobileNo u) pw
         (sharedId u) (refreshToken u) (avatar u) (otp u) (otp_validity u) (currency u).

(** [userSchema.pre("save", ...)]: [modified] are the paths Mongoose tracks as
    modified on the document, and [bcryptHash data rounds] is the string this
    call of [bcrypt.hash] resolves to. *)
Definition preSave (bcryptHash : string -> Z -> string) (modified : list string) (u : user)
  : user :=
  if negb (in_enum "password" modified) then u
  else set_password (bcryptHash (password u) 10) u.









(** ** The admin route table (routes/admin.routes.js) *)

Module AdminRoutes.

Inductive method := GET | POST | DELETE.

Inductive middleware :=
| verifyJWT
| upload_fields (name : string) (maxCount : nat).

(** The controllers the table refers to. *)
Inductive controller :=
| getHomeData | addProduct | getAllProduct | getUserRecords | addEvent
| getEventRecords | updateEvent | deleteEventRecord | uploadSliderImage
| getSliderImages | updateSliderImage | deleteSliderImage
| getAllUserWithdrawalsForAdmin | updateWithdrawalStatusByAdmin.

Record route := mkRoute {
  r_method : method;
  r_path : string;
  r_stack : list middleware;
  r_handler : controller
}.

(** The registrations, in the order of the file. *)
Definition router : list route :=
  [ mkRoute GET "/home" [verifyJWT] getHomeData;
    mkRoute POST "/addProduct" [verifyJWT; upload_fields "productImg" 1] addProduct;
    mkRoute POST "/addEvent" [verifyJWT; upload_fields "eventImg" 1] addEvent;
    mkRoute GET "/getAllProducts" [verifyJWT] getAllProduct;
    mkRoute POST "/addslider" [upload_fields "sliderImg" 1] uploadSliderImage;
    mkRoute GET "/getSliderImg" [] getSliderImages;
    mkRoute POST "/updateslider" [upload_fields "sliderImg" 1] updateSliderImage;
    mkRoute DELETE "/deleteslider" [] deleteSliderImage;
    mkRoute GET "/getEventRecords" [verifyJWT] getEventRecords;
    mkRoute DELETE "/deleteEvent" [] deleteEventRecord;
    mkRoute POST "/updateEvent" [verifyJWT; upload_fields "eventImg" 1] updateEvent;
    mkRoute GET "/getUserRecords" [verifyJWT] getUserRecords;
    mkRoute GET "/withdrawalrequests" [verifyJWT] getAllUserWithdrawalsForAdmin;
    mkRoute POST "/withdrawalrequest/status" [verifyJWT] updateWithdrawalStatusByAdmin ].

Definition method_eqb (a b : method) : bool :=
  match a, b with
  | GET, GET | POST, POST | DELETE, DELETE => true
  | _, _ => false
  end.

Definition is_verifyJWT (m : middleware) : bool :=
  match m with verifyJWT => true | _ => false end.

Definition has_verifyJWT (r : route) : bool := existsb is_verifyJWT (r_stack r).

Definition route_key (r : route) : method * string := (r_method r, r_path r).

Inductive dispatched :=
| Reached (h : controller)
| Unauthorized
| NoRoute.

(** Running the stack of a route. [authenticated] is what the missing
    middlewares/auth.middleware.js decides for the request: [verifyJWT]
    calls [next()] when the token verifies and raises 401 otherwise; the
    upload middleware always goes on. *)
Fixpoint runStack (authenticated : bool) (stack : list middleware) (h : controller)
  : dispatched :=
  match stack with
  | [] => Reached h
  | verifyJWT :: rest => if authenticated then runStack authenticated rest h else Unauthorized
  | upload_fields _ _ :: rest => runStack authenticated rest h
  end.

(** The first registration with the method and path of the request. *)
Fixpoint dispatch (authenticated : bool) (m : method) (path : string) (rs : list route)
  : dispatched :=
  match rs with
  | [] => NoRoute
  | r :: rest =>
      if method_eqb (r_method r) m && (r_path r =? path)%string
      then runStack authenticated (r_stack r) (r_handler r)
      else dispatch authenticated m path rest
  end.

(** The endpoints described as registered without [verifyJWT]. *)
Definition unauthenticatedRoutes : list (method * string) :=
  [ (POST, "/addslider"); (GET, "/getSliderImg"); (POST, "/updateslider");
    (DELETE, "/deleteslider"); (DELETE, "/deleteEvent") ].

End AdminRoutes.

(** ** Collaborators for running the handlers on examples *)

(** An ObjectId cast that accepts every non-empty string as an identifier. *)
Definition castAnyString (v : jsval) : option string :=
  match v with
  | JStr s => if (s =? EmptyString)%string then None else Some s
  | _ => None
  end.

(** Identifiers that grow with the size of the collection. *)
Fixpoint tally (n : nat) : string :=
  match n with
  | O => "#"
  | S k => String "i" (tally k)
  end.

Definition nextObjectId (ids : list string) : string := tally (length ids).

Definition uploadAlwaysNull (path : string) : option cloudinaryResponse := None.

Definition uploadAnswers (u : string) (path : string) : option cloudinaryResponse :=
  Some (mkCloudinaryResponse (JStr u)).

Definition mkBody (fields : list (string * jsval)) : gmap string jsval :=
  list_to_map fields.

Definition mkFiles (field path : string) : option (gmap string (list string)) :=
  Some {[ field := [path] ]}.

(** An ObjectId cast for strings: the 24 lower-case hexadecimal digits an
    ObjectId prints as are taken as the identifier, any other value is
    refused. *)
Definition isHexDigit (c : ascii) : bool :=
  let n := nat_of_ascii c in
  ((48 <=? n)%nat && (n <=? 57)%nat) || ((97 <=? n)%nat && (n <=? 102)%nat).

Definition castHex24 (v : jsval) : option string :=
  match v with
  | JStr s =>
      if (String.length s =? 24)%nat && forallb isHexDigit (list_ascii_of_string s)
      then Some s else None
  | _ => None
  end.

Definition approvedRequestHex : withdrawalRequest :=
  mkWithdrawal "66efc1a2b3c4d5e6f7a8b9c0" "0xAA" 100 95 "alice" "5550100" 0 "Approved".

Definition pendingRequestHex : withdrawalRequest :=
  mkWithdrawal "66efc1a2b3c4d5e6f7a8b9c1" "0xBB" 40 38 "bob" "5550101" 0 "Pending".

Definition approvedRequest : withdrawalRequest :=
  mkWithdrawal "w1" "0xAA" 100 95 "alice" "5550100" 0 "Approved".

Definition pendingRequest : withdrawalRequest :=
  mkWithdrawal "w2" "0xBB" 40 38 "bob" "5550101" 0 "Pending".

Definition statusRequest (id st : string) : request :=
  mkRequest (mkBody [("id", JStr id); ("status", JStr st)]) None.

Definition submittedInput : withdrawalInput :=
  mkWithdrawalInput (Some "0xAA") (Some 100) (Some 95) (Some "alice") (Some "5550100")
                    None None.

(** The terminal states of the specification's state machine. *)
Definition terminalStatus (s : string) : bool :=
  in_enum s ["Approved"; "Rejected"; "Cancelled by Admin"].

(** The two values the admin update lets through. *)
Definition adminAccepts (v : jsval) : bool :=
  strict_eq_str v "Approved" || strict_eq_str v "Cancelled by Admin".

(** The required paths of a withdrawal request are supplied. *)
Definition requiredSupplied (i : withdrawalInput) : bool :=
  match in_address i, in_amount i, in_finalAmount i, in_username i, in_mobile i with
  | Some a, Some _, Some _, Some u, Some m =>
      negb (a =? EmptyString)%string && negb (u =? EmptyString)%string && negb (m =? EmptyString)%string
  | _, _, _, _, _ => false
  end.

(** A product form without [product_name], with and without its image. *)
Definition productFormWithoutName : gmap string jsval :=
  mkBody [("level", JStr "1"); ("ratio_between", JStr "2"); ("price", JStr "10")].

Definition productRequestWithoutName : request :=
  mkRequest productFormWithoutName (mkFiles "productImg" "uploads/p.png").

Definition productRequestWithoutNameOrImage : request :=
  mkRequest productFormWithoutName None.

(** An event form without [title]. *)
Definition eventRequestWithoutTitle : request :=
  mkRequest
    (mkBody [("start_date", JStr "2024-09-22"); ("end_date", JStr "2024-09-23");
             ("description", JStr "launch")])
    (mkFiles "eventImg" "uploads/e.png").

(** A complete event update. *)
Definition eventUpdateRequest : request :=
  mkRequest
    (mkBody [("event_id", JStr "e1"); ("title", JStr "Launch");
             ("start_date", JStr "2024-09-22"); ("end_date", JStr "2024-09-23");
             ("description", JStr "launch")])
    (mkFiles "eventImg" "uploads/e.png").

Definition storedEvent : event :=
  mkEvent "e1" (JStr "Old") (JStr "2024-01-01") (JStr "2024-01-02") (JStr "old")
          (JStr "http://img/old.png").

(** A schema that accepts every document as it is. *)
Definition acceptAll {A : Type} (doc : A) : outcome A := Returned doc.

Definition isApiError (e : exn) : bool :=
  match e with ApiError _ _ => true | _ => false end.

(** ** Further handlers of src/controllers/admin.controller.js *)

(** What the listing handlers put in the envelope. *)
Inductive collectionData :=
| CEmptyObject
| CProducts (ps : list product)
| CEvents (es : list event)
| CSliders (ss : list slider)
| CUsers (us : list user).

(** [res.status(http).json(new ApiResponse(code, data, message))], where the
    two status codes are written separately. *)
Record listResponse := mkListResponse {
  list_http_status : Z;
  list_statusCode : Z;
  list_data : collectionData;
  list_message : string
}.

(** [!a] for an array [a]: an array is an object, empty or not. *)
Definition array_falsy {A : Type} (a : list A) : bool := false.

Definition getAllProduct (db : list product) : listResponse :=
  let allProducts := db in
  if array_falsy allProducts then
    mkListResponse 200 401 CEmptyObject "Something went wrong"
  else
    mkListResponse 200 200 (CProducts allProducts) "Data fetched successfully".

Definition getEventRecords (db : list event) : listResponse :=
  let userEventsRecords := db in
  if array_falsy userEventsRecords then
    mkListResponse 200 401 CEmptyObject "Something went wrong while getting user records"
  else
    mkListResponse 200 200 (CEvents userEventsRecords) "Data fetched successfully".

Definition getUserRecords (db : list user) : listResponse :=
  let userRecords := db in
  if array_falsy userRecords then
    mkListResponse 200 401 CEmptyObject "Something went wrong while getting user records"
  else
    mkListResponse 200 200 (CUsers userRecords) "Data fetched successfully".

(** [Slider.find().select('sliderImg')]: the projection keeps [_id] and
    [sliderImg], which is all a slider document has. *)
Definition getSliderImages (db : list slider) : listResponse :=
  let sliderImages := map (fun x => mkSlider (s_id x) (sliderImg x)) db in
  mkListResponse 200 200 (CSliders sliderImages) "Slider images retrieved successfully".

(** The write of [findByIdAndDelete]: the first document with the id goes. *)
Fixpoint deleteSliderById (oid : string) (db : list slider) : list slider :=
  match db with
  | [] => []
  | x :: rest =>
      if (s_id x =? oid)%string then rest else x :: deleteSliderById oid rest
  end.

Fixpoint deleteEventById (oid : string) (db : list event) : list event :=
  match db with
  | [] => []
  | e :: rest =>
      if (e_id e =? oid)%string then rest else e :: deleteEventById oid rest
  end.

Section DeleteControllers.

Variable castObjectId : jsval -> option string.

Definition deleteSliderImage (req : request) (db : list slider)
  : outcome response * list slider :=
  let id := body_field req "id" in
  if negb (truthy id) then (Thrown (ApiError 400 "Slider ID is required"), db)
  else
    match castObjectId id with
    | None => (Thrown CastError, db)
    | Some oid =>
        match findSliderById oid db with
        | None => (Thrown (ApiError 404 "Slider image not found"), db)
        | Some deletedSlider =>
            (Returned (respond 200 DEmptyObject "Slider image deleted successfully"),
             deleteSliderById oid db)
        end
    end.

Definition deleteEventRecord (req : request) (db : list event)
  : outcome response * list event :=
  let id := body_field req "id" in
  if negb (truthy id) then
    (Returned (respond 400 DEmptyObject "Event ID is required"), db)
  else
    match castObjectId id with
    | None => (Thrown CastError, db)
    | Some oid =>
        match findEventById oid db with
        | None => (Returned (respond 404 DEmptyObject "Event not found"), db)
        | Some deletedEvent =>
            (Returned (respond 200 DEmptyObject "Event deleted successfully"),
             deleteEventById oid db)
        end
    end.

End DeleteControllers.

(** [userSchema.methods.isPasswordCorrect]: [bcryptCompare data encrypted] is
    what [bcrypt.compare] resolves to. *)
Definition isPasswordCorrect (bcryptCompare : string -> string -> bool) (u : user)
    (pw : string) : bool :=
  bcryptCompare pw (password u).

(** Every stored status lies in the given set of values. *)
Definition statusesWithin (dom : list string) (db : list withdrawalRequest) : bool :=
  forallb (fun w => in_enum (status w) dom) db.

(** ** The user route table (second part of routes/admin.routes.js) *)

Module UserRoutes.

Inductive method := GET | POST | PATCH | DELETE.

Inductive middleware :=
| verifyJWT
| upload_fields (name : string) (maxCount : nat)
| upload_single (name : string).

Inductive controller :=
| registerUser | loginUser | sendOtp | processCurrency | receiveMoney
| updateUserAvatar | processWithdrawal | getAllWithdrawals | updateWithdrawalStatus
| deleteWithdrawalRequest | logoutUser | refreshAccessToken | changeCurrentPassword
| getCurrentUser | updateAccountDetails.

Record route := mkRoute {
  r_method : method;
  r_path : string;
  r_stack : list middleware;
  r_handler : controller
}.

Definition router : list route :=
  [ mkRoute POST "/register" [upload_fields "avatar" 1] registerUser;
    mkRoute POST "/login" [] loginUser;
    mkRoute POST "/sendOtp" [] sendOtp;
    mkRoute POST "/usersReciveMoney" [verifyJWT] processCurrency;
    mkRoute POST "/receiveMoney" [verifyJWT] receiveMoney;
    mkRoute PATCH "/avatar" [verifyJWT; upload_single "avatar"] updateUserAvatar;
    mkRoute POST "/withdrawalrequest" [verifyJWT] processWithdrawal;
    mkRoute GET "/getwithdrawalrequest" [verifyJWT] getAllWithdrawals;
    mkRoute POST "/withdrawalrequest/status" [verifyJWT] updateWithdrawalStatus;
    mkRoute DELETE "/withdrawalrequest/delete" [verifyJWT] deleteWithdrawalRequest;
    mkRoute POST "/logout" [verifyJWT] logoutUser;
    mkRoute POST "/refresh-token" [] refreshAccessToken;
    mkRoute POST "/change-password" [verifyJWT] changeCurrentPassword;
    mkRoute GET "/current-user" [verifyJWT] getCurrentUser;
    mkRoute PATCH "/update-account" [verifyJWT] updateAccountDetails ].

Definition method_eqb (a b : method) : bool :=
  match a, b with
  | GET, GET | POST, POST | PATCH, PATCH | DELETE, DELETE => true
  | _, _ => false
  end.

Definition is_verifyJWT (m : middleware) : bool :=
  match m with verifyJWT => true | _ => false end.

Definition has_verifyJWT (r : route) : bool := existsb is_verifyJWT (r_stack r).

Definition route_key (r : route) : method * string := (r_method r, r_path r).

Inductive dispatched :=
| Reached (h : controller)
| Unauthorized
| NoRoute.

(** As for the admin table: [verifyJWT] goes on when the request
    authenticates, the upload middlewares always do. *)
Fixpoint runStack (authenticated : bool) (stack : list middleware) (h : controller)
  : dispatched :=
  match stack with
  | [] => Reached h
  | verifyJWT :: rest => if authenticated then runStack authenticated rest h else Unauthorized
  | upload_fields _ _ :: rest => runStack authenticated rest h
  | upload_single _ :: rest => runStack authenticated rest h
  end.

Fixpoint dispatch (authenticated : bool) (m : method) (path : string) (rs : list route)
  : dispatched :=
  match rs with
  | [] => NoRoute
  | r :: rest =>
      if method_eqb (r_method r) m && (r_path r =? path)%string
      then runStack authenticated (r_stack r) (r_handler r)
      else dispatch authenticated m path rest
  end.

End UserRoutes.

(** ** Matching of a request by the express router *)

Module Express.

(** The method of a request as Node reports it. *)
Inductive requestMethod :=
| GET | HEAD | POST | PUT | DELETE | PATCH | OPTIONS
| OTHER (name : string).

(** A route handles the method it was registered for, and a route
    registered for GET also handles HEAD. *)
Definition handles (m : AdminRoutes.method) (rm : requestMethod) : bool :=
  match m, rm with
  | AdminRoutes.GET, GET | AdminRoutes.GET, HEAD => true
  | AdminRoutes.POST, POST => true
  | AdminRoutes.DELETE, DELETE => true
  | _, _ => false
  end.

Definition lower_ascii (c : ascii) : ascii :=
  let n := nat_of_ascii c in
  if (65 <=? n)%nat && (n <=? 90)%nat then ascii_of_nat (n + 32) else c.

Fixpoint lower (s : string) : string :=
  match s with
  | EmptyString => EmptyString
  | String c s' => String (lower_ascii c) (lower s')
  end.

(** A route path made of letters, digits, hyphens and slashes, as all paths
    of the tables are, is matched against the path name of the request
    without regard to the case of letters, and one slash may follow it. *)
Definition path_matches (route_path path : string) : bool :=
  (lower path =? lower route_path)%string
  || (lower path =? lower route_path +:+ "/")%string.

(** The first registration that handles the method and matches the path. *)
Fixpoint dispatch (authenticated : bool) (rm : requestMethod) (path : string)
    (rs : list AdminRoutes.route) : AdminRoutes.dispatched :=
  match rs with
  | [] => AdminRoutes.NoRoute
  | r :: rest =>
      if handles (AdminRoutes.r_method r) rm && path_matches (AdminRoutes.r_path r) path
      then AdminRoutes.runStack authenticated (AdminRoutes.r_stack r)
                                (AdminRoutes.r_handler r)
      else dispatch authenticated rm path rest
  end.

End Express.

(** ** More collaborators and documents for examples *)

(** U+00A0, a no-break space. *)
Definition noBreakSpace : string :=
  String (ascii_of_nat 194) (String (ascii_of_nat 160) EmptyString).


Definition sliderA : slider := mkSlider "s1" (JStr "http://img/a.png").

Definition idRequest (id : string) : request :=
  mkRequest (mkBody [("id", JStr id)]) None.

Definition sliderUpdateRequest (id : string) : request :=
  mkRequest (mkBody [("id", JStr id)]) (mkFiles "sliderImg" "uploads/s.png").

Definition productRequest : request :=
  mkRequest
    (mkBody [("product_name", JStr "Gold"); ("level", JStr "1");
             ("ratio_between", JStr "2"); ("price", JStr "10")])
    (mkFiles "productImg" "uploads/p.png").

Definition blankProductRequest : request :=
  mkRequest
    (mkBody [("product_name", JStr (" " +:+ noBreakSpace)); ("level", JStr "1");
             ("ratio_between", JStr "2")])
    (mkFiles "productImg" "uploads/p.png").

Definition blankEventRequest : request :=
  mkRequest
    (mkBody [("title", JStr "Launch"); ("start_date", JStr "2024-09-22");
             ("end_date", JStr "2024-09-23"); ("description", JStr " ")])
    (mkFiles "eventImg" "uploads/e.png").

Definition storedProduct : product :=
  mkProduct "p0" (JStr "Silver") (JStr "1") (JStr "2") (JStr "5") (JStr "http://img/s.png").




Definition exampleUser : user :=
  mkUser "u1" "alice" "alice@example.org" "Alice A" 5550100 "secret" None None None None
         None None.

(** A stand-in for the password library that keeps its contract: what
    [toyHash] produces for a password, [toyCompare] accepts for it. *)
Definition toyHash (data : string) (rounds : Z) : string := "$2b$" +:+ data.

Definition toyCompare (data encrypted : string) : bool :=
  (encrypted =? "$2b$" +:+ data)%string.

(** * Properties *)

(** ** The withdrawal collection *)

Lemma findById_updateStatusById oid st db :
  findById oid (updateStatusById oid st db) = set_status st <$> findById oid db.
Proof.
  induction db as [|w rest IH]; simpl; [reflexivity|].
  destruct (String.eqb_spec (w_id w) oid) as [Heq|Hne]; simpl.
  - rewrite Heq, String.eqb_refl. reflexivity.
  - apply String.eqb_neq in Hne. rewrite Hne. exact IH.
Qed.

Lemma findById_updateStatusById_other oid oid' st db :
  oid' <> oid ->
  findById oid' (updateStatusById oid st db) = findById oid' db.
Proof.
  intros Hne. induction db as [|w rest IH]; simpl; [reflexivity|].
  destruct (String.eqb_spec (w_id w) oid) as [Heq|Hw]; simpl.
  - assert (Hf : (w_id w =? oid')%string = false)
      by (apply String.eqb_neq; congruence).
    rewrite Hf. reflexivity.
  - destruct (w_id w =? oid')%string; [reflexivity | exact IH].
Qed.

Lemma updateStatusById_absent oid st db :
  findById oid db = None -> updateStatusById oid st db = db.
Proof.
  induction db as [|w rest IH]; simpl; [reflexivity|].
  destruct (w_id w =? oid)%string; [discriminate|].
  intros H. f_equal. exact (IH H).
Qed.

Lemma updateStatusById_length oid st db :
  length (updateStatusById oid st db) = length db.
Proof.
  induction db as [|w rest IH]; simpl; [reflexivity|].
  destruct (w_id w =? oid)%string; simpl; congruence.
Qed.

Lemma strict_eq_str_true v lit : strict_eq_str v lit = true -> v = JStr lit.
Proof.
  destruct v; simpl; try discriminate.
  intros H. apply String.eqb_eq in H. congruence.
Qed.

Lemma adminAccepts_cases v :
  adminAccepts v = true -> v = JStr "Approved" \/ v = JStr "Cancelled by Admin".
Proof.
  unfold adminAccepts. intros H. apply orb_true_iff in H.
  destruct H as [H|H]; apply strict_eq_str_true in H; auto.
Qed.

Lemma adminAccepts_truthy v : adminAccepts v = true -> truthy v = true.
Proof. intros H. destruct (adminAccepts_cases v H); subst; reflexivity. Qed.

Section WithdrawalFacts.

Variable castObjectId : jsval -> option string.

Local Abbreviation update := (updateWithdrawalStatusByAdmin castObjectId).

(** The three guards of the handler raise the same status and write
    nothing. *)
Lemma update_rejected req db :
  adminAccepts (body_field req "status") = false ->
  exists msg, update req db = (Thrown (ApiError 400 msg), db).
Proof.
  intros Hacc. unfold updateWithdrawalStatusByAdmin.
  destruct (truthy (body_field req "id")); simpl; [|eauto].
  destruct (truthy (body_field req "status")); simpl; [|eauto].
  unfold adminAccepts in Hacc. apply orb_false_iff in Hacc as [-> ->].
  simpl. eauto.
Qed.

(** An accepted status on a record that exists is written to it. *)
Lemma update_accepted req db oid w s :
  truthy (body_field req "id") = true ->
  castObjectId (body_field req "id") = Some oid ->
  findById oid db = Some w ->
  body_field req "status" = JStr s ->
  s = "Approved" \/ s = "Cancelled by Admin" ->
  update req db =
    (Returned (respond 200 (DWithdrawal (set_status s w))
                 ("Withdrawal request " +:+ s +:+ " successfully")),
     updateStatusById oid s db).
Proof.
  intros Hid Hcast Hfind Hst Hs.
  unfold updateWithdrawalStatusByAdmin, findByIdAndUpdateStatus.
  rewrite Hid, Hst, Hcast.
  destruct Hs; subst s; cbn -[updateStatusById findById];
    rewrite findById_updateStatusById, Hfind; reflexivity.
Qed.

(** Every way the handler can end. *)
Lemma update_outcomes req db :
  match update req db with
  | (Returned r, db') =>
      exists oid s w,
        castObjectId (body_field req "id") = Some oid /\
        body_field req "status" = JStr s /\
        (s = "Approved" \/ s = "Cancelled by Admin") /\
        findById oid db = Some w /\
        db' = updateStatusById oid s db /\
        http_status r = 200
  | (Thrown e, db') => db' = db
  end.
Proof.
  destruct (adminAccepts (body_field req "status")) eqn:Hacc.
  - unfold updateWithdrawalStatusByAdmin, findByIdAndUpdateStatus.
    destruct (truthy (body_field req "id")) eqn:Hid; [|reflexivity].
    destruct (castObjectId (body_field req "id")) as [oid|] eqn:Hcast;
      destruct (adminAccepts_cases _ Hacc) as [Hs|Hs]; rewrite Hs;
      cbn -[updateStatusById findById]; try reflexivity;
      rewrite findById_updateStatusById;
      (destruct (findById oid db) as [w|] eqn:Hfind; cbn -[updateStatusById];
       [ eexists oid, _, w; repeat split; eauto
       | apply updateStatusById_absent; exact Hfind ]).
  - destruct (update_rejected req db Hacc) as [msg ->]. reflexivity.
Qed.

End WithdrawalFacts.

(** ** Status transitions under the admin update *)

(** C1, as the specification states it, fails: a record that is Approved, a
    terminal state, is moved to "Cancelled by Admin" by a later admin
    update. *)
Lemma terminal_status_overwritten :
  terminalStatus (status approvedRequestHex) = true /\
  status <$> findById "66efc1a2b3c4d5e6f7a8b9c0" [approvedRequestHex] = Some "Approved" /\
  status <$> findById "66efc1a2b3c4d5e6f7a8b9c0"
    (snd (updateWithdrawalStatusByAdmin castHex24
            (statusRequest "66efc1a2b3c4d5e6f7a8b9c0" "Cancelled by Admin")
            [approvedRequestHex]))
    = Some "Cancelled by Admin" /\
  status <$> findById "66efc1a2b3c4d5e6f7a8b9c0"
    (snd (updateWithdrawalStatusByAdmin castHex24
            (statusRequest "66efc1a2b3c4d5e6f7a8b9c0" "Cancelled by Admin")
            [approvedRequestHex]))
    <> status <$> findById "66efc1a2b3c4d5e6f7a8b9c0" [approvedRequestHex].
Proof. vm_compute. repeat split. discriminate. Qed.

(** C1 (amended): the admin update does not look at the current status. A
    call that succeeds carried an id that casts to the identifier of a
    record that exists, whatever the status of that record was, and leaves
    that record, the one the request addresses, with the requested status,
    which is Approved or "Cancelled by Admin"; no other record changes and
    none is added or removed. A call that raises leaves the collection as it
    was. And on a record that exists, in any state, an accepted status is
    written. *)
Theorem admin_update_transitions castObjectId req db :
  match updateWithdrawalStatusByAdmin castObjectId req db with
  | (Returned r, db') =>
      exists oid s w,
        truthy (body_field req "id") = true /\
        castObjectId (body_field req "id") = Some oid /\
        findById oid db = Some w /\
        body_field req "status" = JStr s /\
        (s = "Approved" \/ s = "Cancelled by Admin") /\
        findById oid db' = Some (set_status s w) /\
        (forall oid', oid' <> oid -> findById oid' db' = findById oid' db) /\
        length db' = length db /\
        r = respond 200 (DWithdrawal (set_status s w))
                    ("Withdrawal request " +:+ s +:+ " successfully")
  | (Thrown _, db') => db' = db
  end /\
  (forall oid w s,
      truthy (body_field req "id") = true ->
      castObjectId (body_field req "id") = Some oid ->
      findById oid db = Some w ->
      body_field req "status" = JStr s ->
      s = "Approved" \/ s = "Cancelled by Admin" ->
      status <$> findById oid (snd (updateWithdrawalStatusByAdmin castObjectId req db))
        = Some s).
Proof.
  split.
  - pose proof (update_outcomes castObjectId req db) as H.
    destruct (truthy (body_field req "id")) eqn:Hid.
    + destruct (updateWithdrawalStatusByAdmin castObjectId req db) as [[r|e] db'] eqn:Hup;
        [|exact H].
      destruct H as (oid & s & w & Hcast & Hst & Hs & Hfind & -> & _).
      exists oid, s, w. repeat split; try assumption.
      * rewrite findById_updateStatusById, Hfind. reflexivity.
      * intros oid' Hne. apply findById_updateStatusById_other. exact Hne.
      * apply updateStatusById_length.
      * rewrite (update_accepted castObjectId req db oid w s Hid Hcast Hfind Hst Hs)
          in Hup.
        congruence.
    + clear H. unfold updateWithdrawalStatusByAdmin. rewrite Hid. reflexivity.
  - intros oid w s Hid Hcast Hfind Hst Hs.
    rewrite (update_accepted castObjectId req db oid w s Hid Hcast Hfind Hst Hs).
    cbn [snd]. rewrite findById_updateStatusById, Hfind. reflexivity.
Qed.

Lemma admin_update_transitions_witness :
  status <$> findById "66efc1a2b3c4d5e6f7a8b9c0"
    (snd (updateWithdrawalStatusByAdmin castHex24
            (statusRequest "66efc1a2b3c4d5e6f7a8b9c0" "Cancelled by Admin")
            [approvedRequestHex; pendingRequestHex]))
  = Some "Cancelled by Admin".
Proof.
  apply (proj2 (admin_update_transitions castHex24
                  (statusRequest "66efc1a2b3c4d5e6f7a8b9c0" "Cancelled by Admin")
                  [approvedRequestHex; pendingRequestHex])
               "66efc1a2b3c4d5e6f7a8b9c0" approvedRequestHex);
    try reflexivity.
  right. reflexivity.
Defined.

(** C2: a status other than "Approved" and "Cancelled by Admin" (so also
    "Rejected", "Pending", or none at all) makes the admin update raise an
    error of status 400, a ValidationError, and the collection is what it
    was; "Approved" or "Cancelled by Admin" on a record that exists is
    answered with 200 and the record then has that status. *)
Theorem admin_update_status_validation castObjectId req db :
  (adminAccepts (body_field req "status") = false ->
   exists msg,
     updateWithdrawalStatusByAdmin castObjectId req db = (Thrown (ApiError 400 msg), db) /\
     errorKind_of (ApiError 400 msg) = ValidationError) /\
  (forall oid w s,
      truthy (body_field req "id") = true ->
      castObjectId (body_field req "id") = Some oid ->
      findById oid db = Some w ->
      body_field req "status" = JStr s ->
      s = "Approved" \/ s = "Cancelled by Admin" ->
      exists r db',
        updateWithdrawalStatusByAdmin castObjectId req db = (Returned r, db') /\
        http_status r = 200 /\
        findById oid db' = Some (set_status s w) /\
        status (set_status s w) = s).
Proof.
  split.
  - intros Hacc. destruct (update_rejected castObjectId req db Hacc) as [msg Hmsg].
    exists msg. split; [exact Hmsg | reflexivity].
  - intros oid w s Hid Hcast Hfind Hst Hs.
    eexists _, _. split; [apply (update_accepted _ _ _ oid w s); assumption|].
    split; [reflexivity|]. split; [|reflexivity].
    rewrite findById_updateStatusById, Hfind. reflexivity.
Qed.

Lemma admin_update_status_validation_witness :
  (exists msg,
     updateWithdrawalStatusByAdmin castAnyString (statusRequest "w2" "Rejected")
       [pendingRequest] = (Thrown (ApiError 400 msg), [pendingRequest]) /\
     errorKind_of (ApiError 400 msg) = ValidationError) /\
  (exists r db',
     updateWithdrawalStatusByAdmin castAnyString (statusRequest "w2" "Approved")
       [pendingRequest] = (Returned r, db') /\
     http_status r = 200 /\
     findById "w2" db' = Some (set_status "Approved" pendingRequest) /\
     status (set_status "Approved" pendingRequest) = "Approved").
Proof.
  split.
  - apply (proj1 (admin_update_status_validation castAnyString
                    (statusRequest "w2" "Rejected") [pendingRequest])).
    reflexivity.
  - apply (proj2 (admin_update_status_validation castAnyString
                    (statusRequest "w2" "Approved") [pendingRequest])
                 "w2" pendingRequest "Approved"); try reflexivity.
    left. reflexivity.
Defined.

(** C3: the schema declares three values for [status], and "Cancelled by
    Admin" is not one of them; the admin update writes it all the same. On
    every record that exists the update with "Cancelled by Admin" leaves a
    stored status that lies in the four-value set of the specification and
    outside the enum of the schema, a value with which no document can be
    created. *)
Theorem cancelled_by_admin_outside_enum castObjectId req db oid w :
  truthy (body_field req "id") = true ->
  castObjectId (body_field req "id") = Some oid ->
  findById oid db = Some w ->
  body_field req "status" = JStr "Cancelled by Admin" ->
  exists w',
    findById oid (snd (updateWithdrawalStatusByAdmin castObjectId req db)) = Some w' /\
    status w' = "Cancelled by Admin" /\
    in_enum (status w') specStatusDomain = true /\
    in_enum (status w') statusEnum = false /\
    (forall now oid' i,
        in_status i = Some (status w') ->
        exists path, newWithdrawalRequest now oid' i = Thrown (MongooseValidationError path)).
Proof.
  intros Hid Hcast Hfind Hst.
  rewrite (update_accepted castObjectId req db oid w _ Hid Hcast Hfind Hst
             (or_intror eq_refl)).
  cbn [snd]. rewrite findById_updateStatusById, Hfind.
  exists (set_status "Cancelled by Admin" w).
  repeat split.
  intros now oid' i Hi. unfold newWithdrawalRequest. rewrite Hi.
  destruct (in_address i) as [a|]; cbn; [|eauto].
  destruct (a =? EmptyString)%string; cbn; [eauto|].
  destruct (in_amount i); cbn; [|eauto].
  destruct (in_finalAmount i); cbn; [|eauto].
  destruct (in_username i) as [u|]; cbn; [|eauto].
  destruct (u =? EmptyString)%string; cbn; [eauto|].
  destruct (in_mobile i) as [m|]; cbn; [|eauto].
  destruct (m =? EmptyString)%string; cbn; eauto.
Qed.

Lemma cancelled_by_admin_outside_enum_witness :
  exists w',
    findById "w2"
      (snd (updateWithdrawalStatusByAdmin castAnyString
              (statusRequest "w2" "Cancelled by Admin") [pendingRequest])) = Some w' /\
    status w' = "Cancelled by Admin" /\
    in_enum (status w') specStatusDomain = true /\
    in_enum (status w') statusEnum = false /\
    (forall now oid' i,
        in_status i = Some (status w') ->
        exists path, newWithdrawalRequest now oid' i = Thrown (MongooseValidationError path)).
Proof.
  apply (cancelled_by_admin_outside_enum castAnyString
           (statusRequest "w2" "Cancelled by Admin") [pendingRequest] "w2" pendingRequest);
    reflexivity.
Defined.

(** ** Creation of a withdrawal request *)

Lemma newWithdrawalRequest_status now oid i w :
  newWithdrawalRequest now oid i = Returned w ->
  status w = default statusDefault (in_status i) /\ w_id w = oid.
Proof.
  unfold newWithdrawalRequest.
  destruct (in_address i) as [a|]; cbn; [|discriminate].
  destruct (a =? EmptyString)%string; cbn; [discriminate|].
  destruct (in_amount i); cbn; [|discriminate].
  destruct (in_finalAmount i); cbn; [|discriminate].
  destruct (in_username i) as [u|]; cbn; [|discriminate].
  destruct (u =? EmptyString)%string; cbn; [discriminate|].
  destruct (in_mobile i) as [m|]; cbn; [|discriminate].
  destruct (m =? EmptyString)%string; cbn; [discriminate|].
  match goal with |- (if ?b then _ else _) = _ -> _ => destruct b end;
    [|discriminate].
  intros [= <-]. split; reflexivity.
Qed.

Lemma newWithdrawalRequest_total now oid i :
  requiredSupplied i = true ->
  in_enum (default statusDefault (in_status i)) statusEnum = true ->
  exists w, newWithdrawalRequest now oid i = Returned w.
Proof.
  unfold requiredSupplied, newWithdrawalRequest. intros Hreq Henum.
  destruct (in_address i) as [a|]; [|discriminate].
  destruct (in_amount i); [|discriminate].
  destruct (in_finalAmount i); [|discriminate].
  destruct (in_username i) as [u|]; [|discriminate].
  destruct (in_mobile i) as [m|]; [|discriminate].
  apply andb_true_iff in Hreq as [Hreq Hm].
  apply andb_true_iff in Hreq as [Ha Hu].
  apply negb_true_iff in Ha, Hu, Hm.
  cbn -[in_enum]. rewrite Ha, Hu, Hm. cbn -[in_enum]. rewrite Henum. eauto.
Qed.

(** C4: when the caller supplies no status, the schema default applies. A
    request whose required paths are supplied is created, and every request
    that is created this way is stored with status "Pending". *)
Theorem created_without_status_is_pending now oid i db :
  in_status i = None ->
  (forall w db',
      withdrawalCreate now oid i db = (Returned w, db') ->
      status w = "Pending" /\ db' = db ++ [w]) /\
  (requiredSupplied i = true ->
   exists w,
     withdrawalCreate now oid i db = (Returned w, db ++ [w]) /\ status w = "Pending").
Proof.
  intros Hst. unfold withdrawalCreate. split.
  - intros w db' H.
    destruct (newWithdrawalRequest now oid i) as [w0|e] eqn:Hnew; [|discriminate].
    injection H as <- <-.
    apply newWithdrawalRequest_status in Hnew as [Hs _].
    rewrite Hst in Hs. split; [exact Hs | reflexivity].
  - intros Hreq.
    destruct (newWithdrawalRequest_total now oid i Hreq) as [w Hw].
    { rewrite Hst. reflexivity. }
    rewrite Hw. exists w. split; [reflexivity|].
    apply newWithdrawalRequest_status in Hw as [Hs _].
    rewrite Hst in Hs. exact Hs.
Qed.

Lemma created_without_status_is_pending_witness :
  exists w,
    withdrawalCreate 1700000000 "w3" submittedInput [pendingRequest]
      = (Returned w, [pendingRequest] ++ [w]) /\
    status w = "Pending".
Proof.
  apply (proj2 (created_without_status_is_pending 1700000000 "w3" submittedInput
                  [pendingRequest] eq_refl)).
  reflexivity.
Defined.

(** ** The admin listing *)

(** C9: on an empty collection the listing answers 404 (NotFoundError) with
    an empty list as data; otherwise it answers 200 with every request of
    the collection. *)
Theorem listing_empty_is_not_found (db : list withdrawalRequest) :
  getAllUserWithdrawalsForAdmin db =
    match db with
    | [] => respond 404 (DWithdrawals []) "No withdrawal requests found"
    | _ :: _ => respond 200 (DWithdrawals db) "Withdrawal requests retrieved successfully"
    end /\
  errorKind_of_status 404 = NotFoundError /\
  (http_status (getAllUserWithdrawalsForAdmin db) = 404 <-> db = []) /\
  (http_status (getAllUserWithdrawalsForAdmin db) = 200 <-> db <> []).
Proof.
  destruct db as [|w rest]; cbn; repeat split; try congruence; try discriminate.
Qed.

(** ** Token issuers *)






(** The pre-save hook: a modified password is replaced by what [bcrypt.hash]
    answers for it with 10 rounds; a document whose password is not modified
    is saved as it is. *)
Lemma preSave_password bcryptHash modified u :
  password (preSave bcryptHash modified u) =
    if in_enum "password" modified then bcryptHash (password u) 10 else password u.
Proof. unfold preSave. destruct (in_enum "password" modified); reflexivity. Qed.

(** ** Catalog handlers: the field test *)

Lemma blank_is_blank_string field :
  blank field = true <-> exists s, field = JStr s /\ trim s = EmptyString.
Proof.
  unfold blank. destruct field; cbn; split; try discriminate;
    try (intros (s0 & Hs & _); discriminate).
  - intros H. apply String.eqb_eq in H. eauto.
  - intros (s0 & [= <-] & Ht). apply String.eqb_eq. exact Ht.
Qed.

(** A field that is absent from the form is not blank for the test. *)
Lemma blank_undefined : blank JUndefined = false.
Proof. reflexivity. Qed.

Section CatalogFacts.

Variable castObjectId : jsval -> option string.
Variable newObjectId : list string -> string.
Variable uploadOnCloudinary : string -> option cloudinaryResponse.
Variable productSchema : product -> outcome product.
Variable eventSchema : event -> outcome event.
Variable sliderSchema : slider -> outcome slider.

(** A blank text field ends [addProduct] with status 400 before anything
    is uploaded or stored. *)
Lemma addProduct_blank_field req db :
  existsb blank [body_field req "product_name"; body_field req "level";
                 body_field req "ratio_between"] = true ->
  addProduct newObjectId uploadOnCloudinary productSchema req db
    = (Returned (mkResponse 400 (JsonNum 400)), db).
Proof. intros H. unfold addProduct. rewrite H. reflexivity. Qed.

Lemma addEvent_blank_field req db :
  existsb blank [body_field req "title"; body_field req "start_date";
                 body_field req "end_date"; body_field req "description"] = true ->
  addEvent newObjectId uploadOnCloudinary eventSchema req db
    = (Returned (mkResponse 400 (JsonNum 400)), db).
Proof. intros H. unfold addEvent. rewrite H. reflexivity. Qed.

(** The handlers that test the answer of the image host itself: on [null]
    they end with their upload error and store nothing. *)
Lemma null_upload_tested req path :
  uploadOnCloudinary path = None ->
  path <> EmptyString ->
  (forall db,
      existsb blank [body_field req "product_name"; body_field req "level";
                     body_field req "ratio_between"] = false ->
      file_path req "productImg" = Some path ->
      addProduct newObjectId uploadOnCloudinary productSchema req db
        = (Returned (mkResponse 401 (JsonNum 401)), db)) /\
  (forall db,
      existsb blank [body_field req "title"; body_field req "start_date";
                     body_field req "end_date"; body_field req "description"] = false ->
      file_path req "eventImg" = Some path ->
      addEvent newObjectId uploadOnCloudinary eventSchema req db
        = (Thrown (ApiError 400 "Event file is required"), db)) /\
  (forall db,
      file_path req "sliderImg" = Some path ->
      uploadSliderImage newObjectId uploadOnCloudinary sliderSchema req db
        = (Thrown (ApiError 400 "Slider file is required"), db)) /\
  (forall db,
      truthy (body_field req "id") = true ->
      file_path req "sliderImg" = Some path ->
      updateSliderImage castObjectId uploadOnCloudinary req db
        = (Thrown (ApiError 400 "Slider file upload failed"), db)).
Proof.
  intros Hup Hpath.
  destruct path as [|c rest]; [contradiction|].
  repeat split; intros db.
  - intros Hb Hf. unfold addProduct. rewrite Hb, Hf, Hup. reflexivity.
  - intros Hb Hf. unfold addEvent. rewrite Hb, Hf, Hup. reflexivity.
  - intros Hf. unfold uploadSliderImage. rewrite Hf, Hup. reflexivity.
  - intros Hid Hf. unfold updateSliderImage. rewrite Hid, Hf, Hup. reflexivity.
Qed.

End CatalogFacts.

(** C7: the test for required text fields looks for strings that are blank
    and lets an absent field through. A product form without [product_name]
    is not answered with 400: without an image the answer is 401, and with an
    image the document, its [productName] undefined, goes to the schema and,
    if the schema takes it, is stored and answered with 200. The same form
    of test lets an event without [title] through to [Events.create]. *)
Theorem missing_field_passes_validation
    (newObjectId : list string -> string)
    (productSchema : product -> outcome product)
    (eventSchema : event -> outcome event) :
  body_field productRequestWithoutName "product_name" = JUndefined /\
  addProduct newObjectId uploadAlwaysNull productSchema productRequestWithoutNameOrImage []
    = (Returned (mkResponse 401 (JsonNum 401)), []) /\
  addProduct newObjectId (uploadAnswers "http://img/p.png") productSchema
             productRequestWithoutName []
    = match productSchema
              (mkProduct (newObjectId []) JUndefined (JStr "1") (JStr "2") (JStr "10")
                         (JStr "http://img/p.png")) with
      | Returned p =>
          (Returned (respond 200 (DProduct (findProductById (p_id p) [p]))
                             "Product added successfully"), [p])
      | Thrown e => (Thrown e, [])
      end /\
  snd (addProduct newObjectId (uploadAnswers "http://img/p.png") acceptAll
                  productRequestWithoutName [])
    = [mkProduct (newObjectId []) JUndefined (JStr "1") (JStr "2") (JStr "10")
                 (JStr "http://img/p.png")] /\
  body_field eventRequestWithoutTitle "title" = JUndefined /\
  snd (addEvent newObjectId (uploadAnswers "http://img/e.png") acceptAll
                eventRequestWithoutTitle [])
    = [mkEvent (newObjectId []) JUndefined (JStr "2024-09-22") (JStr "2024-09-23")
               (JStr "launch") (JStr "http://img/e.png")] /\
  addEvent newObjectId (uploadAnswers "http://img/e.png") eventSchema
           eventRequestWithoutTitle []
    = match eventSchema
              (mkEvent (newObjectId []) JUndefined (JStr "2024-09-22") (JStr "2024-09-23")
                       (JStr "launch") (JStr "http://img/e.png")) with
      | Returned e =>
          (Returned (respond 200 (DEvent (findEventById (e_id e) [e]))
                             "Event added successfully"), [e])
      | Thrown x => (Thrown x, [])
      end.
Proof.
  split; [vm_compute; reflexivity|].
  split; [vm_compute; reflexivity|].
  split.
  { unfold addProduct, productCreate.
    change (body_field productRequestWithoutName "product_name") with JUndefined.
    change (body_field productRequestWithoutName "level") with (JStr "1").
    change (body_field productRequestWithoutName "ratio_between") with (JStr "2").
    change (body_field productRequestWithoutName "price") with (JStr "10").
    change (file_path productRequestWithoutName "productImg") with (Some "uploads/p.png").
    cbn. destruct (productSchema _); reflexivity. }
  split; [vm_compute; reflexivity|].
  split; [vm_compute; reflexivity|].
  split; [vm_compute; reflexivity|].
  unfold addEvent, eventCreate.
  change (body_field eventRequestWithoutTitle "title") with JUndefined.
  change (body_field eventRequestWithoutTitle "start_date") with (JStr "2024-09-22").
  change (body_field eventRequestWithoutTitle "end_date") with (JStr "2024-09-23").
  change (body_field eventRequestWithoutTitle "description") with (JStr "launch").
  change (file_path eventRequestWithoutTitle "eventImg") with (Some "uploads/e.png").
  cbn. destruct (eventSchema _); reflexivity.
Qed.

(** ** Catalog handlers: the answer of the image host *)

(** C8: [updateEvent] reads [url] from the answer of the image host without
    testing the answer. When the host answers [null] for a complete update
    request, the handler does not reach its upload error (an [ApiError] of
    status 400): a TypeError is raised instead, and the collection is left
    as it was. An answer without a usable [url] does reach the upload
    error. *)
Theorem updateEvent_null_upload castObjectId uploadOnCloudinary req db path :
  truthy (body_field req "event_id") = true ->
  truthy (body_field req "title") = true ->
  truthy (body_field req "start_date") = true ->
  truthy (body_field req "end_date") = true ->
  truthy (body_field req "description") = true ->
  file_path req "eventImg" = Some path ->
  path <> EmptyString ->
  (uploadOnCloudinary path = None ->
   exists msg,
     updateEvent castObjectId uploadOnCloudinary req db = (Thrown (TypeError msg), db) /\
     isApiError (TypeError msg) = false /\
     errorKind_of (TypeError msg) = ServerError) /\
  (forall obj,
      uploadOnCloudinary path = Some obj ->
      truthy (url obj) = false ->
      updateEvent castObjectId uploadOnCloudinary req db
        = (Thrown (ApiError 400 "Error while uploading Event Image"), db)).
Proof.
  intros Hid Ht Hs He Hd Hf Hpath.
  destruct path as [|c rest]; [contradiction|].
  split.
  - intros Hup. eexists. unfold updateEvent.
    rewrite Hid, Ht, Hs, He, Hd, Hf, Hup. cbn. repeat split.
  - intros obj Hup Hurl. unfold updateEvent.
    rewrite Hid, Ht, Hs, He, Hd, Hf, Hup, Hurl. reflexivity.
Qed.

Lemma updateEvent_null_upload_witness :
  exists msg,
    updateEvent castAnyString uploadAlwaysNull eventUpdateRequest [storedEvent]
      = (Thrown (TypeError msg), [storedEvent]) /\
    isApiError (TypeError msg) = false /\
    errorKind_of (TypeError msg) = ServerError.
Proof.
  apply (proj1 (updateEvent_null_upload castAnyString uploadAlwaysNull eventUpdateRequest
                  [storedEvent] "uploads/e.png"
                  eq_refl eq_refl eq_refl eq_refl eq_refl eq_refl
                  ltac:(discriminate))).
  reflexivity.
Defined.

(** ** The blank-field test of the create handlers *)

Lemma all_ws_trim_left_aux n :
  forall s, (String.length s <= n)%nat -> all_ws (trim_left s) = all_ws s.
Proof.
  induction n as [|n IH]; intros s Hlen.
  - destruct s; [reflexivity | cbn in Hlen; lia].
  - destruct s as [|c1 r1]; [reflexivity|]. cbn in Hlen.
    cbn [trim_left all_ws].
    destruct (is_ws c1) eqn:E1; [apply IH; lia|].
    destruct r1 as [|c2 r2]; [cbn; rewrite E1; reflexivity|]. cbn in Hlen.
    destruct (is_ws2 c1 c2) eqn:E2; [apply IH; lia|].
    destruct r2 as [|c3 r3]; [cbn; rewrite E1, E2; reflexivity|]. cbn in Hlen.
    destruct (is_ws3 c1 c2 c3) eqn:E3; [apply IH; lia|].
    cbn. rewrite E1, E2, E3. reflexivity.
Qed.

Lemma all_ws_trim_left s : all_ws (trim_left s) = all_ws s.
Proof. apply (all_ws_trim_left_aux (String.length s)). lia. Qed.

Lemma trim_right_empty s : trim_right s = EmptyString <-> all_ws s = true.
Proof.
  destruct s as [|c s']; [cbn; tauto|].
  cbn [trim_right]. destruct (all_ws (String c s')); split; congruence.
Qed.

Lemma trim_empty s : trim s = EmptyString <-> all_ws s = true.
Proof. unfold trim. rewrite trim_right_empty, all_ws_trim_left. tauto. Qed.

Lemma blank_all_ws field :
  blank field = true <-> exists s, field = JStr s /\ all_ws s = true.
Proof.
  rewrite blank_is_blank_string. split; intros (s & H1 & H2); exists s;
    (split; [exact H1 | apply trim_empty; exact H2]).
Qed.

Lemma existsb_blank fields :
  existsb blank fields = true <->
  exists s, In (JStr s) fields /\ all_ws s = true.
Proof.
  rewrite existsb_exists. split.
  - intros (v & Hin & Hb). apply blank_all_ws in Hb as (s & -> & Hs). eauto.
  - intros (s & Hin & Hs). exists (JStr s). split; [exact Hin|].
    apply blank_all_ws. eauto.
Qed.

(** [addProduct] answers with the bare 400 exactly when one of
    [product_name], [level], [ratio_between] is a string of white space only
    (the empty string included, and white space as [trim] knows it: no-break
    and other Unicode spaces count); nothing is stored then. [price] is not
    among the tested fields. *)
Theorem addProduct_400_iff_blank_string
    (newObjectId : list string -> string)
    (uploadOnCloudinary : string -> option cloudinaryResponse)
    (productSchema : product -> outcome product) req db :
  (exists s,
      In (JStr s) [body_field req "product_name"; body_field req "level";
                   body_field req "ratio_between"] /\ all_ws s = true) <->
  addProduct newObjectId uploadOnCloudinary productSchema req db
    = (Returned (mkResponse 400 (JsonNum 400)), db).
Proof.
  rewrite <- existsb_blank. unfold addProduct, productCreate.
  destruct (existsb blank _) eqn:Hb; [tauto|].
  split; [discriminate|]. intros H. exfalso. revert H.
  destruct (file_path req "productImg") as [[|c path]|]; try discriminate.
  destruct (uploadOnCloudinary _); try discriminate.
  destruct (productSchema _); discriminate.
Qed.

Lemma addProduct_400_iff_blank_string_witness :
  addProduct nextObjectId (uploadAnswers "http://img/p.png") acceptAll
             blankProductRequest [storedProduct]
    = (Returned (mkResponse 400 (JsonNum 400)), [storedProduct]).
Proof.
  apply (proj1 (addProduct_400_iff_blank_string nextObjectId
                  (uploadAnswers "http://img/p.png") acceptAll blankProductRequest
                  [storedProduct])).
  exists (" " +:+ noBreakSpace). split; [left; reflexivity | reflexivity].
Defined.

(** [addEvent] answers with the bare 400 exactly when one of [title],
    [start_date], [end_date], [description] is a string of white space
    only, white space as [trim] knows it; nothing is stored then. *)
Theorem addEvent_400_iff_blank_string
    (newObjectId : list string -> string)
    (uploadOnCloudinary : string -> option cloudinaryResponse)
    (eventSchema : event -> outcome event) req db :
  (exists s,
      In (JStr s) [body_field req "title"; body_field req "start_date";
                   body_field req "end_date"; body_field req "description"]
      /\ all_ws s = true) <->
  addEvent newObjectId uploadOnCloudinary eventSchema req db
    = (Returned (mkResponse 400 (JsonNum 400)), db).
Proof.
  rewrite <- existsb_blank. unfold addEvent, eventCreate.
  destruct (existsb blank _) eqn:Hb; [tauto|].
  split; [discriminate|]. intros H. exfalso. revert H.
  destruct (file_path req "eventImg") as [[|c path]|]; try discriminate.
  destruct (uploadOnCloudinary _); try discriminate.
  destruct (eventSchema _); discriminate.
Qed.

Lemma addEvent_400_iff_blank_string_witness :
  addEvent nextObjectId (uploadAnswers "http://img/e.png") acceptAll
           blankEventRequest [storedEvent]
    = (Returned (mkResponse 400 (JsonNum 400)), [storedEvent]).
Proof.
  apply (proj1 (addEvent_400_iff_blank_string nextObjectId
                  (uploadAnswers "http://img/e.png") acceptAll blankEventRequest
                  [storedEvent])).
  exists " ". split; [right; right; right; left; reflexivity | reflexivity].
Defined.

(** ** Documents the create handlers store *)

Lemma findProductById_app_fresh oid db p :
  findProductById oid db = None ->
  p_id p = oid ->
  findProductById oid (db ++ [p]) = Some p.
Proof.
  intros Hnone Hid. induction db as [|q rest IH]; cbn in *.
  - rewrite Hid, String.eqb_refl. reflexivity.
  - destruct (p_id q =? oid)%string; [discriminate | exact (IH Hnone)].
Qed.

(** When no field is blank, an image was sent, the image host answers and
    the schema takes the document, and the identifier of the document is
    not in use in the collection (identifiers are unique, and a new document
    is given one that is new), [addProduct] appends that one document,
    carrying the URL of the host as its image, and answers 200 with the
    stored document as data. *)
Theorem addProduct_stores_one_document
    (newObjectId : list string -> string)
    (uploadOnCloudinary : string -> option cloudinaryResponse)
    (productSchema : product -> outcome product) req db path obj p :
  existsb blank [body_field req "product_name"; body_field req "level";
                 body_field req "ratio_between"] = false ->
  file_path req "productImg" = Some path ->
  path <> EmptyString ->
  uploadOnCloudinary path = Some obj ->
  productSchema
    (mkProduct (newObjectId (map p_id db)) (body_field req "product_name")
               (body_field req "level") (body_field req "ratio_between")
               (body_field req "price") (url obj)) = Returned p ->
  findProductById (p_id p) db = None ->
  addProduct newObjectId uploadOnCloudinary productSchema req db
    = (Returned (respond 200 (DProduct (Some p)) "Product added successfully"),
       db ++ [p]) /\
  findProductById (p_id p) (db ++ [p]) = Some p /\
  (forall oid, oid <> p_id p ->
     findProductById oid (db ++ [p]) = findProductById oid db).
Proof.
  intros Hb Hf Hpath Hup Hschema Hfresh.
  destruct path as [|c rest]; [contradiction|].
  unfold addProduct, productCreate. rewrite Hb, Hf, Hup, Hschema.
  rewrite (findProductById_app_fresh _ _ p Hfresh eq_refl).
  split; [reflexivity|]. split; [reflexivity|].
  intros oid Hne. clear -Hne. induction db as [|q rest IH]; cbn.
  - destruct (String.eqb_spec (p_id p) oid); [congruence | reflexivity].
  - destruct (p_id q =? oid)%string; [reflexivity | exact IH].
Qed.

Lemma addProduct_stores_one_document_witness :
  addProduct nextObjectId (uploadAnswers "http://img/p.png") acceptAll productRequest
             [storedProduct]
    = (Returned (respond 200
         (DProduct (Some (mkProduct "i#" (JStr "Gold") (JStr "1") (JStr "2") (JStr "10")
                                    (JStr "http://img/p.png"))))
         "Product added successfully"),
       [storedProduct] ++
       [mkProduct "i#" (JStr "Gold") (JStr "1") (JStr "2") (JStr "10")
                  (JStr "http://img/p.png")]).
Proof.
  apply (proj1 (addProduct_stores_one_document nextObjectId
                  (uploadAnswers "http://img/p.png") acceptAll productRequest
                  [storedProduct] "uploads/p.png"
                  (mkCloudinaryResponse (JStr "http://img/p.png"))
                  (mkProduct "i#" (JStr "Gold") (JStr "1") (JStr "2") (JStr "10")
                             (JStr "http://img/p.png"))
                  eq_refl eq_refl ltac:(discriminate) eq_refl eq_refl eq_refl)).
Defined.

(** The create handlers never change or remove a stored document: the
    collection afterwards is the one before, or the one before with one
    document appended, and a document is appended only with a 200 answer. *)
Theorem create_handlers_only_append
    (newObjectId : list string -> string)
    (uploadOnCloudinary : string -> option cloudinaryResponse)
    (productSchema : product -> outcome product)
    (eventSchema : event -> outcome event)
    (sliderSchema : slider -> outcome slider) req :
  (forall db,
      let r := addProduct newObjectId uploadOnCloudinary productSchema req db in
      snd r = db \/
      exists p resp, snd r = db ++ [p] /\ fst r = Returned resp /\ http_status resp = 200) /\
  (forall db,
      let r := addEvent newObjectId uploadOnCloudinary eventSchema req db in
      snd r = db \/
      exists e resp, snd r = db ++ [e] /\ fst r = Returned resp /\ http_status resp = 200) /\
  (forall db,
      let r := uploadSliderImage newObjectId uploadOnCloudinary sliderSchema req db in
      snd r = db \/
      exists x resp, snd r = db ++ [x] /\ fst r = Returned resp /\ http_status resp = 200).
Proof.
  repeat split; intros db; cbv zeta.
  - unfold addProduct, productCreate.
    destruct (existsb blank _); [left; reflexivity|].
    destruct (file_path req "productImg") as [[|c path]|]; try (left; reflexivity).
    destruct (uploadOnCloudinary _); try (left; reflexivity).
    destruct (productSchema _); [right; eauto | left; reflexivity].
  - unfold addEvent, eventCreate.
    destruct (existsb blank _); [left; reflexivity|].
    destruct (file_path req "eventImg") as [[|c path]|]; try (left; reflexivity).
    destruct (uploadOnCloudinary _); try (left; reflexivity).
    destruct (eventSchema _); [right; eauto | left; reflexivity].
  - unfold uploadSliderImage, sliderCreate.
    destruct (file_path req "sliderImg") as [[|c path]|]; try (left; reflexivity).
    destruct (uploadOnCloudinary _); try (left; reflexivity).
    destruct (sliderSchema _); [right; eauto | left; reflexivity].
Qed.

(** ** Updates of sliders and events *)

Lemma findSliderById_update oid img db :
  findSliderById oid (updateSliderById oid img db)
    = (fun x => mkSlider (s_id x) img) <$> findSliderById oid db.
Proof.
  induction db as [|x rest IH]; cbn; [reflexivity|].
  destruct (String.eqb_spec (s_id x) oid) as [Heq|Hne]; cbn.
  - rewrite Heq, String.eqb_refl. reflexivity.
  - apply String.eqb_neq in Hne. rewrite Hne. exact IH.
Qed.

Lemma findSliderById_update_other oid oid' img db :
  oid' <> oid ->
  findSliderById oid' (updateSliderById oid img db) = findSliderById oid' db.
Proof.
  intros Hne. induction db as [|x rest IH]; cbn; [reflexivity|].
  destruct (String.eqb_spec (s_id x) oid) as [Heq|Hx]; cbn.
  - assert (Hf : (s_id x =? oid')%string = false)
      by (apply String.eqb_neq; congruence).
    rewrite Hf. reflexivity.
  - destruct (s_id x =? oid')%string; [reflexivity | exact IH].
Qed.

Lemma updateSliderById_absent oid img db :
  findSliderById oid db = None -> updateSliderById oid img db = db.
Proof.
  induction db as [|x rest IH]; cbn; [reflexivity|].
  destruct (s_id x =? oid)%string; [discriminate|].
  intros H. f_equal. exact (IH H).
Qed.

(** Every way [updateSliderImage] can end. A 200 answer means that the
    addressed slider existed and now carries the URL the image host
    answered, with no other slider changed; every exception, the 404 for an
    unknown identifier included, leaves the collection as it was. The
    image is uploaded before the slider is looked up. *)
Theorem updateSliderImage_outcomes
    (castObjectId : jsval -> option string)
    (uploadOnCloudinary : string -> option cloudinaryResponse) req db :
  match updateSliderImage castObjectId uploadOnCloudinary req db with
  | (Returned r, db') =>
      exists oid path obj x,
        castObjectId (body_field req "id") = Some oid /\
        file_path req "sliderImg" = Some path /\
        uploadOnCloudinary path = Some obj /\
        findSliderById oid db = Some x /\
        findSliderById oid db' = Some (mkSlider (s_id x) (url obj)) /\
        (forall oid', oid' <> oid -> findSliderById oid' db' = findSliderById oid' db) /\
        r = respond 200 (DSlider (mkSlider (s_id x) (url obj)))
                    "Slider image updated successfully"
  | (Thrown e, db') =>
      db' = db /\
      (e = ApiError 404 "Slider image not found" ->
       exists oid path,
         castObjectId (body_field req "id") = Some oid /\
         findSliderById oid db = None /\
         file_path req "sliderImg" = Some path /\
         uploadOnCloudinary path <> None)
  end.
Proof.
  unfold updateSliderImage.
  destruct (truthy (body_field req "id")); cbn; [|split; [reflexivity|discriminate]].
  destruct (file_path req "sliderImg") as [[|c path]|];
    try (split; [reflexivity|discriminate]).
  destruct (uploadOnCloudinary _) as [obj|] eqn:Hup;
    [|split; [reflexivity|discriminate]].
  destruct (castObjectId _) as [oid|] eqn:Hcast; [|split; [reflexivity|discriminate]].
  rewrite findSliderById_update.
  destruct (findSliderById oid db) as [x|] eqn:Hfind; cbn.
  - exists oid, (String c path), obj, x. repeat split; try assumption.
    + rewrite findSliderById_update, Hfind. reflexivity.
    + intros oid' Hne. apply findSliderById_update_other. exact Hne.
  - split; [apply updateSliderById_absent; exact Hfind|].
    intros _. exists oid, (String c path). repeat split; try assumption.
    rewrite Hup. discriminate.
Qed.

Lemma findEventById_update oid t sd ed d img db :
  findEventById oid (updateEventById oid t sd ed d img db)
    = (fun e => mkEvent (e_id e) t sd ed d img) <$> findEventById oid db.
Proof.
  induction db as [|e rest IH]; cbn; [reflexivity|].
  destruct (String.eqb_spec (e_id e) oid) as [Heq|Hne]; cbn.
  - rewrite Heq, String.eqb_refl. reflexivity.
  - apply String.eqb_neq in Hne. rewrite Hne. exact IH.
Qed.

Lemma findEventById_update_other oid oid' t sd ed d img db :
  oid' <> oid ->
  findEventById oid' (updateEventById oid t sd ed d img db) = findEventById oid' db.
Proof.
  intros Hne. induction db as [|e rest IH]; cbn; [reflexivity|].
  destruct (String.eqb_spec (e_id e) oid) as [Heq|Hx]; cbn.
  - assert (Hf : (e_id e =? oid')%string = false)
      by (apply String.eqb_neq; congruence).
    rewrite Hf. reflexivity.
  - destruct (e_id e =? oid')%string; [reflexivity | exact IH].
Qed.

Lemma updateEventById_absent oid t sd ed d img db :
  findEventById oid db = None -> updateEventById oid t sd ed d img db = db.
Proof.
  induction db as [|e rest IH]; cbn; [reflexivity|].
  destruct (e_id e =? oid)%string; [discriminate|].
  intros H. f_equal. exact (IH H).
Qed.

(** A complete update request whose image the host stores is answered with
    200 whether or not the event exists. When it exists, its five fields are
    replaced and its identifier kept, and no other event changes; when no
    event has the identifier, the answer is still 200, with [null] as data,
    and the collection is unchanged. *)
Theorem updateEvent_answers_200
    (castObjectId : jsval -> option string)
    (uploadOnCloudinary : string -> option cloudinaryResponse) req db path obj oid :
  truthy (body_field req "event_id") = true ->
  truthy (body_field req "title") = true ->
  truthy (body_field req "start_date") = true ->
  truthy (body_field req "end_date") = true ->
  truthy (body_field req "description") = true ->
  file_path req "eventImg" = Some path ->
  path <> EmptyString ->
  uploadOnCloudinary path = Some obj ->
  truthy (url obj) = true ->
  castObjectId (body_field req "event_id") = Some oid ->
  let updated :=
    mkEvent oid (body_field req "title") (body_field req "start_date")
            (body_field req "end_date") (body_field req "description") (url obj) in
  (findEventById oid db = None ->
   updateEvent castObjectId uploadOnCloudinary req db
     = (Returned (respond 200 (DEvent None) "Event Details updated successfully"), db)) /\
  (forall e,
      findEventById oid db = Some e ->
      exists db',
        updateEvent castObjectId uploadOnCloudinary req db
          = (Returned (respond 200 (DEvent (Some updated))
                               "Event Details updated successfully"), db') /\
        findEventById oid db' = Some updated /\
        length db' = length db /\
        (forall oid', oid' <> oid -> findEventById oid' db' = findEventById oid' db)).
Proof.
  intros Hid Ht Hs He Hd Hf Hpath Hup Hurl Hcast updated.
  destruct path as [|c rest]; [contradiction|].
  unfold updateEvent. rewrite Hid, Ht, Hs, He, Hd, Hf, Hup, Hurl, Hcast. cbn.
  rewrite findEventById_update. split.
  - intros Hnone. rewrite Hnone, (updateEventById_absent _ _ _ _ _ _ _ Hnone). reflexivity.
  - intros e Hfind. rewrite Hfind. cbn.
    assert (Heid : e_id e = oid).
    { clear -Hfind. induction db as [|x xs IH]; cbn in Hfind; [discriminate|].
      destruct (String.eqb_spec (e_id x) oid) as [Heq|Hne];
        [injection Hfind as <-; exact Heq | exact (IH Hfind)]. }
    rewrite Heid. eexists. split; [reflexivity|].
    split; [rewrite findEventById_update, Hfind; cbn; rewrite Heid; reflexivity|].
    split.
    + clear. induction db as [|x xs IH]; cbn; [reflexivity|].
      destruct (e_id x =? oid)%string; cbn; congruence.
    + intros oid' Hne. apply findEventById_update_other. exact Hne.
Qed.

Lemma updateEvent_answers_200_witness :
  updateEvent castAnyString (uploadAnswers "http://img/e.png") eventUpdateRequest []
    = (Returned (respond 200 (DEvent None) "Event Details updated successfully"), []).
Proof.
  apply (proj1 (updateEvent_answers_200 castAnyString (uploadAnswers "http://img/e.png")
                  eventUpdateRequest [] "uploads/e.png"
                  (mkCloudinaryResponse (JStr "http://img/e.png")) "e1"
                  eq_refl eq_refl eq_refl eq_refl eq_refl eq_refl ltac:(discriminate)
                  eq_refl eq_refl eq_refl)).
  reflexivity.
Defined.

(** ** Deleting sliders and events *)

Lemma findSliderById_None oid db :
  findSliderById oid db = None <-> ~ In oid (map s_id db).
Proof.
  induction db as [|x rest IH]; cbn; [tauto|].
  destruct (String.eqb_spec (s_id x) oid) as [Heq|Hne].
  - split; [discriminate | intros H; exfalso; apply H; left; exact Heq].
  - rewrite IH. tauto.
Qed.

Lemma deleteSliderById_other oid oid' db :
  oid' <> oid ->
  findSliderById oid' (deleteSliderById oid db) = findSliderById oid' db.
Proof.
  intros Hne. induction db as [|x rest IH]; cbn; [reflexivity|].
  destruct (String.eqb_spec (s_id x) oid) as [Heq|Hx]; cbn.
  - assert (Hf : (s_id x =? oid')%string = false)
      by (apply String.eqb_neq; congruence).
    rewrite Hf. reflexivity.
  - destruct (s_id x =? oid')%string; [reflexivity | exact IH].
Qed.

Lemma deleteSliderById_length oid db x :
  findSliderById oid db = Some x ->
  length db = S (length (deleteSliderById oid db)).
Proof.
  induction db as [|y rest IH]; cbn; [discriminate|].
  destruct (s_id y =? oid)%string; [reflexivity|].
  intros H. cbn. f_equal. exact (IH H).
Qed.

Lemma deleteSliderById_gone oid db :
  List.NoDup (map s_id db) ->
  findSliderById oid (deleteSliderById oid db) = None.
Proof.
  induction db as [|x rest IH]; cbn; [reflexivity|].
  intros Hnd. apply List.NoDup_cons_iff in Hnd as [Hnotin Hnd].
  destruct (String.eqb_spec (s_id x) oid) as [Heq|Hne].
  - apply findSliderById_None. rewrite <- Heq. exact Hnotin.
  - cbn. apply String.eqb_neq in Hne. rewrite Hne. exact (IH Hnd).
Qed.

(** Every way [deleteSliderImage] can end. A 200 answer means that a slider
    with the identifier existed and exactly that one document is gone: the
    collection is one shorter, every other identifier is found as before,
    and, when identifiers are unique, the deleted one is found no more. An
    exception is one of three (no id: 400, an id that is no ObjectId:
    CastError, no such slider: 404) and leaves the collection as it was. *)
Theorem deleteSliderImage_outcomes (castObjectId : jsval -> option string) req db :
  match deleteSliderImage castObjectId req db with
  | (Returned r, db') =>
      exists oid x,
        castObjectId (body_field req "id") = Some oid /\
        findSliderById oid db = Some x /\
        length db = S (length db') /\
        (forall oid', oid' <> oid -> findSliderById oid' db' = findSliderById oid' db) /\
        (List.NoDup (map s_id db) -> findSliderById oid db' = None) /\
        r = respond 200 DEmptyObject "Slider image deleted successfully"
  | (Thrown e, db') =>
      db' = db /\
      (e = ApiError 400 "Slider ID is required" /\ truthy (body_field req "id") = false \/
       e = CastError /\ castObjectId (body_field req "id") = None \/
       e = ApiError 404 "Slider image not found" /\
         exists oid, castObjectId (body_field req "id") = Some oid /\
                     findSliderById oid db = None)
  end.
Proof.
  unfold deleteSliderImage.
  destruct (truthy (body_field req "id")); cbn; [|split; [reflexivity|left; split; reflexivity]].
  destruct (castObjectId _) as [oid|] eqn:Hcast;
    [|split; [reflexivity|right; left; split; reflexivity]].
  destruct (findSliderById oid db) as [x|] eqn:Hfind.
  - exists oid, x. repeat split; try assumption.
    + exact (deleteSliderById_length oid db x Hfind).
    + intros oid' Hne. apply deleteSliderById_other. exact Hne.
    + apply deleteSliderById_gone.
  - split; [reflexivity|]. right; right. split; [reflexivity|]. eauto.
Qed.



Lemma findEventById_None oid db :
  findEventById oid db = None <-> ~ In oid (map e_id db).
Proof.
  induction db as [|x rest IH]; cbn; [tauto|].
  destruct (String.eqb_spec (e_id x) oid) as [Heq|Hne].
  - split; [discriminate | intros H; exfalso; apply H; left; exact Heq].
  - rewrite IH. tauto.
Qed.

Lemma deleteEventById_other oid oid' db :
  oid' <> oid ->
  findEventById oid' (deleteEventById oid db) = findEventById oid' db.
Proof.
  intros Hne. induction db as [|x rest IH]; cbn; [reflexivity|].
  destruct (String.eqb_spec (e_id x) oid) as [Heq|Hx]; cbn.
  - assert (Hf : (e_id x =? oid')%string = false)
      by (apply String.eqb_neq; congruence).
    rewrite Hf. reflexivity.
  - destruct (e_id x =? oid')%string; [reflexivity | exact IH].
Qed.

Lemma deleteEventById_gone oid db :
  List.NoDup (map e_id db) ->
  findEventById oid (deleteEventById oid db) = None.
Proof.
  induction db as [|x rest IH]; cbn; [reflexivity|].
  intros Hnd. apply List.NoDup_cons_iff in Hnd as [Hnotin Hnd].
  destruct (String.eqb_spec (e_id x) oid) as [Heq|Hne].
  - apply findEventById_None. rewrite <- Heq. exact Hnotin.
  - cbn. apply String.eqb_neq in Hne. rewrite Hne. exact (IH Hnd).
Qed.

(** [deleteEventRecord] reports a missing id and an unknown event as
    answers (400 and 404) and not as exceptions; the only exception it
    raises is the CastError of an id that is no ObjectId. The collection
    changes with the 200 answer only, and then the event with the
    identifier is removed and every other event stays. *)
Theorem deleteEventRecord_outcomes (castObjectId : jsval -> option string) req db :
  match deleteEventRecord castObjectId req db with
  | (Returned r, db') =>
      (http_status r = 400 /\ truthy (body_field req "id") = false /\ db' = db) \/
      (http_status r = 404 /\ db' = db /\
       exists oid, castObjectId (body_field req "id") = Some oid /\
                   findEventById oid db = None) \/
      (http_status r = 200 /\
       exists oid e, castObjectId (body_field req "id") = Some oid /\
                     findEventById oid db = Some e /\
                     db' = deleteEventById oid db /\
                     (forall oid', oid' <> oid ->
                        findEventById oid' db' = findEventById oid' db) /\
                     (List.NoDup (map e_id db) -> findEventById oid db' = None))
  | (Thrown e, db') =>
      e = CastError /\ db' = db /\ castObjectId (body_field req "id") = None
  end.
Proof.
  unfold deleteEventRecord.
  destruct (truthy (body_field req "id")); cbn; [|left; repeat split].
  destruct (castObjectId _) as [oid|] eqn:Hcast; [|repeat split].
  destruct (findEventById oid db) as [e|] eqn:Hfind.
  - right; right. split; [reflexivity|]. exists oid, e. repeat split; try assumption.
    + intros oid' Hne. apply deleteEventById_other. exact Hne.
    + apply deleteEventById_gone.
  - right; left. repeat split. eauto.
Qed.

(** ** More on the withdrawal collection *)

Lemma newWithdrawalRequest_fields now oid i w :
  newWithdrawalRequest now oid i = Returned w ->
  w_id w = oid /\
  status w = default statusDefault (in_status i) /\
  dateTime w = default now (in_dateTime i) /\
  in_enum (status w) statusEnum = true.
Proof.
  unfold newWithdrawalRequest.
  destruct (in_address i) as [a|]; cbn -[in_enum]; [|discriminate].
  destruct (a =? EmptyString)%string; cbn -[in_enum]; [discriminate|].
  destruct (in_amount i); cbn -[in_enum]; [|discriminate].
  destruct (in_finalAmount i); cbn -[in_enum]; [|discriminate].
  destruct (in_username i) as [u|]; cbn -[in_enum]; [|discriminate].
  destruct (u =? EmptyString)%string; cbn -[in_enum]; [discriminate|].
  destruct (in_mobile i) as [m|]; cbn -[in_enum]; [|discriminate].
  destruct (m =? EmptyString)%string; cbn -[in_enum]; [discriminate|].
  destruct (in_enum _ statusEnum) eqn:E; [|discriminate].
  intros [= <-]. cbn -[in_enum]. repeat split. exact E.
Qed.

Lemma statusesWithin_app dom db1 db2 :
  statusesWithin dom (db1 ++ db2) = statusesWithin dom db1 && statusesWithin dom db2.
Proof. unfold statusesWithin. apply forallb_app. Qed.

Lemma statusesWithin_update dom oid s db :
  in_enum s dom = true ->
  statusesWithin dom db = true ->
  statusesWithin dom (updateStatusById oid s db) = true.
Proof.
  intros Hs. unfold statusesWithin.
  induction db as [|w rest IH]; cbn -[in_enum]; [reflexivity|].
  intros H. apply andb_true_iff in H as [Hw Hrest].
  destruct (w_id w =? oid)%string; cbn -[in_enum].
  - rewrite Hs, Hrest. reflexivity.
  - rewrite Hw, (IH Hrest). reflexivity.
Qed.

(** The admin update keeps the stored statuses within any set of values
    that contains "Approved" and "Cancelled by Admin": if every request of
    the collection has its status in the set before the call, every request
    has afterwards, whatever the request was and however the call ends. In
    particular it keeps them within the four values Pending, Approved,
    Rejected and "Cancelled by Admin". *)
Theorem statuses_stay_within_four_values
    (castObjectId : jsval -> option string) req db :
  (forall dom,
      in_enum "Approved" dom = true ->
      in_enum "Cancelled by Admin" dom = true ->
      statusesWithin dom db = true ->
      statusesWithin dom (snd (updateWithdrawalStatusByAdmin castObjectId req db)) = true) /\
  (statusesWithin specStatusDomain db = true ->
   statusesWithin specStatusDomain
     (snd (updateWithdrawalStatusByAdmin castObjectId req db)) = true).
Proof.
  assert (Hgen : forall dom,
             in_enum "Approved" dom = true ->
             in_enum "Cancelled by Admin" dom = true ->
             statusesWithin dom db = true ->
             statusesWithin dom
               (snd (updateWithdrawalStatusByAdmin castObjectId req db)) = true).
  { intros dom Ha Hc Hdb. pose proof (update_outcomes castObjectId req db) as H.
    destruct (updateWithdrawalStatusByAdmin castObjectId req db) as [[r|e] db']; cbn [snd].
    - destruct H as (oid & s & w & _ & _ & Hs & _ & -> & _).
      apply statusesWithin_update; [|exact Hdb]. destruct Hs; subst s; assumption.
    - rewrite H. exact Hdb. }
  split; [exact Hgen|]. apply Hgen; reflexivity.
Qed.

Lemma statuses_stay_within_four_values_witness :
  statusesWithin specStatusDomain
    (snd (updateWithdrawalStatusByAdmin castAnyString
            (statusRequest "w2" "Cancelled by Admin") [approvedRequest; pendingRequest]))
  = true.
Proof.
  apply (proj2 (statuses_stay_within_four_values castAnyString
                  (statusRequest "w2" "Cancelled by Admin")
                  [approvedRequest; pendingRequest])).
  reflexivity.
Defined.

Lemma updateStatusById_twice oid s1 s2 db :
  updateStatusById oid s2 (updateStatusById oid s1 db) = updateStatusById oid s2 db.
Proof.
  induction db as [|w rest IH]; cbn; [reflexivity|].
  destruct (w_id w =? oid)%string eqn:E; cbn; rewrite E; [reflexivity|].
  f_equal. exact IH.
Qed.

(** Two admin updates of the same request in a row leave the collection as
    the second one alone would: the last status written wins, and repeating
    an update changes nothing more. Both calls are answered with 200. *)
Theorem admin_update_last_write_wins
    (castObjectId : jsval -> option string) req1 req2 db oid w s1 s2 :
  body_field req1 "id" = body_field req2 "id" ->
  truthy (body_field req1 "id") = true ->
  castObjectId (body_field req1 "id") = Some oid ->
  findById oid db = Some w ->
  body_field req1 "status" = JStr s1 ->
  body_field req2 "status" = JStr s2 ->
  s1 = "Approved" \/ s1 = "Cancelled by Admin" ->
  s2 = "Approved" \/ s2 = "Cancelled by Admin" ->
  let db1 := snd (updateWithdrawalStatusByAdmin castObjectId req1 db) in
  updateWithdrawalStatusByAdmin castObjectId req2 db1
    = (Returned (respond 200 (DWithdrawal (set_status s2 w))
                   ("Withdrawal request " +:+ s2 +:+ " successfully")),
       snd (updateWithdrawalStatusByAdmin castObjectId req2 db)).
Proof.
  intros Hsame Hid Hcast Hfind Hst1 Hst2 Hs1 Hs2 db1. subst db1.
  rewrite (update_accepted castObjectId req1 db oid w s1 Hid Hcast Hfind Hst1 Hs1).
  cbn [snd].
  rewrite Hsame in Hid, Hcast.
  rewrite (update_accepted castObjectId req2 db oid w s2 Hid Hcast Hfind Hst2 Hs2).
  cbn [snd].
  rewrite (update_accepted castObjectId req2 (updateStatusById oid s1 db) oid
             (set_status s1 w) s2 Hid Hcast).
  - rewrite updateStatusById_twice. reflexivity.
  - rewrite findById_updateStatusById, Hfind. reflexivity.
  - exact Hst2.
  - exact Hs2.
Qed.

Lemma admin_update_last_write_wins_witness :
  updateWithdrawalStatusByAdmin castAnyString (statusRequest "w2" "Cancelled by Admin")
    (snd (updateWithdrawalStatusByAdmin castAnyString (statusRequest "w2" "Approved")
            [pendingRequest]))
  = (Returned (respond 200 (DWithdrawal (set_status "Cancelled by Admin" pendingRequest))
                 ("Withdrawal request " +:+ "Cancelled by Admin" +:+ " successfully")),
     snd (updateWithdrawalStatusByAdmin castAnyString
            (statusRequest "w2" "Cancelled by Admin") [pendingRequest])).
Proof.
  apply (admin_update_last_write_wins castAnyString (statusRequest "w2" "Approved")
           (statusRequest "w2" "Cancelled by Admin") [pendingRequest] "w2" pendingRequest
           "Approved" "Cancelled by Admin");
    try reflexivity; [left | right]; reflexivity.
Defined.

(** An accepted status for an identifier that no request has is answered
    with the 404 error, a NotFoundError, and an identifier that is no
    ObjectId with Mongoose's CastError; the collection is unchanged in both
    cases. *)
Theorem admin_update_unknown_request
    (castObjectId : jsval -> option string) req db :
  truthy (body_field req "id") = true ->
  adminAccepts (body_field req "status") = true ->
  (forall oid,
      castObjectId (body_field req "id") = Some oid ->
      findById oid db = None ->
      updateWithdrawalStatusByAdmin castObjectId req db
        = (Thrown (ApiError 404 "Withdrawal request not found"), db) /\
      errorKind_of (ApiError 404 "Withdrawal request not found") = NotFoundError) /\
  (castObjectId (body_field req "id") = None ->
   updateWithdrawalStatusByAdmin castObjectId req db = (Thrown CastError, db)).
Proof.
  intros Hid Hacc.
  unfold updateWithdrawalStatusByAdmin, findByIdAndUpdateStatus. rewrite Hid.
  destruct (adminAccepts_cases _ Hacc) as [Hs|Hs]; rewrite Hs; cbn -[updateStatusById findById].
  all: split; [intros oid Hcast Hnone; rewrite Hcast; cbn -[updateStatusById findById];
               rewrite findById_updateStatusById, Hnone; cbn;
               rewrite (updateStatusById_absent _ _ _ Hnone); split; reflexivity
              | intros Hcast; rewrite Hcast; reflexivity].
Qed.

Lemma admin_update_unknown_request_witness :
  updateWithdrawalStatusByAdmin castAnyString (statusRequest "w9" "Approved")
    [pendingRequest]
  = (Thrown (ApiError 404 "Withdrawal request not found"), [pendingRequest]).
Proof.
  apply (proj1 (admin_update_unknown_request castAnyString
                  (statusRequest "w9" "Approved") [pendingRequest] eq_refl eq_refl)
               "w9" eq_refl eq_refl).
Defined.

Lemma findById_app_fresh oid db w :
  findById oid db = None -> w_id w = oid -> findById oid (db ++ [w]) = Some w.
Proof.
  intros Hnone Hid. induction db as [|x rest IH]; cbn in *.
  - rewrite Hid, String.eqb_refl. reflexivity.
  - destruct (w_id x =? oid)%string; [discriminate | exact (IH Hnone)].
Qed.

Lemma updateStatusById_app_fresh oid s db w :
  findById oid db = None -> w_id w = oid ->
  updateStatusById oid s (db ++ [w]) = db ++ [set_status s w].
Proof.
  intros Hnone Hid. induction db as [|x rest IH]; cbn in *.
  - rewrite Hid, String.eqb_refl. reflexivity.
  - destruct (w_id x =? oid)%string; [discriminate|]. f_equal. exact (IH Hnone).
Qed.

(** From creation to the listing: a request created without a status under
    an identifier that is new to the collection is stored as Pending; the
    admin update with "Approved" for that identifier then changes that last
    document only, and the admin listing answers 200 with the earlier
    documents followed by the approved one. *)
Theorem create_approve_list
    (castObjectId : jsval -> option string) now oid i db req :
  requiredSupplied i = true ->
  in_status i = None ->
  findById oid db = None ->
  truthy (body_field req "id") = true ->
  castObjectId (body_field req "id") = Some oid ->
  body_field req "status" = JStr "Approved" ->
  exists w,
    withdrawalCreate now oid i db = (Returned w, db ++ [w]) /\
    status w = "Pending" /\
    snd (updateWithdrawalStatusByAdmin castObjectId req (db ++ [w]))
      = db ++ [set_status "Approved" w] /\
    getAllUserWithdrawalsForAdmin (db ++ [set_status "Approved" w])
      = respond 200 (DWithdrawals (db ++ [set_status "Approved" w]))
                "Withdrawal requests retrieved successfully".
Proof.
  intros Hreq Hst Hfresh Hid Hcast Hstatus.
  destruct (newWithdrawalRequest_total now oid i Hreq) as [w Hnew].
  { rewrite Hst. reflexivity. }
  destruct (newWithdrawalRequest_fields _ _ _ _ Hnew) as (Hwid & Hpending & _ & _).
  rewrite Hst in Hpending.
  exists w. split; [unfold withdrawalCreate; rewrite Hnew; reflexivity|].
  split; [exact Hpending|].
  split.
  - rewrite (update_accepted castObjectId req (db ++ [w]) oid w "Approved" Hid Hcast
               (findById_app_fresh _ _ _ Hfresh Hwid) Hstatus (or_introl eq_refl)).
    cbn [snd]. apply updateStatusById_app_fresh; assumption.
  - unfold getAllUserWithdrawalsForAdmin, withdrawalFind.
    destruct (db ++ [set_status "Approved" w]) eqn:E; [|reflexivity].
    destruct db; discriminate.
Qed.

Lemma create_approve_list_witness :
  exists w,
    withdrawalCreate 1700000000 "w3" submittedInput [pendingRequest]
      = (Returned w, [pendingRequest] ++ [w]) /\
    status w = "Pending" /\
    snd (updateWithdrawalStatusByAdmin castAnyString (statusRequest "w3" "Approved")
           ([pendingRequest] ++ [w]))
      = [pendingRequest] ++ [set_status "Approved" w] /\
    getAllUserWithdrawalsForAdmin ([pendingRequest] ++ [set_status "Approved" w])
      = respond 200 (DWithdrawals ([pendingRequest] ++ [set_status "Approved" w]))
                "Withdrawal requests retrieved successfully".
Proof.
  apply (create_approve_list castAnyString 1700000000 "w3" submittedInput [pendingRequest]
           (statusRequest "w3" "Approved") eq_refl eq_refl eq_refl eq_refl eq_refl eq_refl).
Defined.

(** ** Listings of the catalog *)

Lemma slider_projection_id (db : list slider) :
  map (fun x => mkSlider (s_id x) (sliderImg x)) db = db.
Proof.
  induction db as [|[i img] rest IH]; cbn; [reflexivity|]. rewrite IH. reflexivity.
Qed.

Lemma addProduct_appends
    (newObjectId : list string -> string)
    (uploadOnCloudinary : string -> option cloudinaryResponse)
    (productSchema : product -> outcome product) req db :
  exists new, (length new <= 1)%nat /\
    snd (addProduct newObjectId uploadOnCloudinary productSchema req db) = db ++ new.
Proof.
  unfold addProduct, productCreate.
  destruct (existsb blank _); [exists []; rewrite app_nil_r; cbn; split; [lia|reflexivity]|].
  destruct (file_path req "productImg") as [[|c path]|];
    try (exists []; rewrite app_nil_r; cbn; split; [lia|reflexivity]).
  destruct (uploadOnCloudinary _);
    try (exists []; rewrite app_nil_r; cbn; split; [lia|reflexivity]).
  destruct (productSchema _) as [p|e];
    [exists [p] | exists []; rewrite app_nil_r]; cbn; split; try lia; reflexivity.
Qed.

Lemma addEvent_appends
    (newObjectId : list string -> string)
    (uploadOnCloudinary : string -> option cloudinaryResponse)
    (eventSchema : event -> outcome event) req db :
  exists new, (length new <= 1)%nat /\
    snd (addEvent newObjectId uploadOnCloudinary eventSchema req db) = db ++ new.
Proof.
  unfold addEvent, eventCreate.
  destruct (existsb blank _); [exists []; rewrite app_nil_r; cbn; split; [lia|reflexivity]|].
  destruct (file_path req "eventImg") as [[|c path]|];
    try (exists []; rewrite app_nil_r; cbn; split; [lia|reflexivity]).
  destruct (uploadOnCloudinary _);
    try (exists []; rewrite app_nil_r; cbn; split; [lia|reflexivity]).
  destruct (eventSchema _) as [p|e];
    [exists [p] | exists []; rewrite app_nil_r]; cbn; split; try lia; reflexivity.
Qed.

Lemma uploadSliderImage_appends
    (newObjectId : list string -> string)
    (uploadOnCloudinary : string -> option cloudinaryResponse)
    (sliderSchema : slider -> outcome slider) req db :
  exists new, (length new <= 1)%nat /\
    snd (uploadSliderImage newObjectId uploadOnCloudinary sliderSchema req db) = db ++ new.
Proof.
  unfold uploadSliderImage, sliderCreate.
  destruct (file_path req "sliderImg") as [[|c path]|];
    try (exists []; rewrite app_nil_r; cbn; split; [lia|reflexivity]).
  destruct (uploadOnCloudinary _);
    try (exists []; rewrite app_nil_r; cbn; split; [lia|reflexivity]).
  destruct (sliderSchema _) as [p|e];
    [exists [p] | exists []; rewrite app_nil_r]; cbn; split; try lia; reflexivity.
Qed.

(** The catalog and user listings answer 200 with the whole collection in
    its order, also when it is empty (the admin listing of withdrawals
    answers 404 then); their error answer is never given. After any call of
    a create handler the listing shows the documents that were there
    before, in the same order, followed by at most one new document. *)
Theorem catalog_listings
    (newObjectId : list string -> string)
    (uploadOnCloudinary : string -> option cloudinaryResponse)
    (productSchema : product -> outcome product)
    (eventSchema : event -> outcome event)
    (sliderSchema : slider -> outcome slider) :
  (forall db, getAllProduct db = mkListResponse 200 200 (CProducts db)
                                   "Data fetched successfully") /\
  (forall db, getEventRecords db = mkListResponse 200 200 (CEvents db)
                                     "Data fetched successfully") /\
  (forall db, getUserRecords db = mkListResponse 200 200 (CUsers db)
                                    "Data fetched successfully") /\
  (forall db, getSliderImages db = mkListResponse 200 200 (CSliders db)
                                     "Slider images retrieved successfully") /\
  (forall req db, exists new,
      (length new <= 1)%nat /\
      list_data (getAllProduct
                   (snd (addProduct newObjectId uploadOnCloudinary productSchema req db)))
        = CProducts (db ++ new)) /\
  (forall req db, exists new,
      (length new <= 1)%nat /\
      list_data (getEventRecords
                   (snd (addEvent newObjectId uploadOnCloudinary eventSchema req db)))
        = CEvents (db ++ new)) /\
  (forall req db, exists new,
      (length new <= 1)%nat /\
      list_data (getSliderImages
                   (snd (uploadSliderImage newObjectId uploadOnCloudinary sliderSchema
                                           req db)))
        = CSliders (db ++ new)).
Proof.
  split; [reflexivity|]. split; [reflexivity|]. split; [reflexivity|].
  split; [intros db; unfold getSliderImages; rewrite slider_projection_id; reflexivity|].
  split; [|split]; intros req db.
  - destruct (addProduct_appends newObjectId uploadOnCloudinary productSchema req db)
      as (new & Hlen & ->).
    exists new. split; [exact Hlen | reflexivity].
  - destruct (addEvent_appends newObjectId uploadOnCloudinary eventSchema req db)
      as (new & Hlen & ->).
    exists new. split; [exact Hlen | reflexivity].
  - destruct (uploadSliderImage_appends newObjectId uploadOnCloudinary sliderSchema req db)
      as (new & Hlen & ->).
    exists new. split; [exact Hlen|].
    unfold getSliderImages. rewrite slider_projection_id. reflexivity.
Qed.

(** ** Passwords *)

(** Saving a user whose password is marked as modified stores what the
    password library made of it, and the stored value verifies the password
    that was saved, given the library's contract that a hash verifies its
    own input. Saving with the password not marked saves the document as it
    is. In both cases no other field changes. *)
Theorem saved_password_verifies
    (bcryptHash : string -> Z -> string) (bcryptCompare : string -> string -> bool)
    (modified : list string) (u : user) :
  (forall data, bcryptCompare data (bcryptHash data 10) = true) ->
  (in_enum "password" modified = true ->
   isPasswordCorrect bcryptCompare (preSave bcryptHash modified u) (password u) = true) /\
  (in_enum "password" modified = false -> preSave bcryptHash modified u = u) /\
  preSave bcryptHash modified u
    = set_password (password (preSave bcryptHash modified u)) u.
Proof.
  intros Hcontract. unfold isPasswordCorrect, preSave.
  destruct (in_enum "password" modified); cbn.
  - split; [intros _; apply Hcontract|]. split; [discriminate | reflexivity].
  - split; [discriminate|]. split; [reflexivity|]. destruct u; reflexivity.
Qed.

Lemma toy_password_contract data : toyCompare data (toyHash data 10) = true.
Proof. unfold toyCompare, toyHash. apply String.eqb_refl. Qed.

Lemma saved_password_verifies_witness :
  isPasswordCorrect toyCompare (preSave toyHash ["password"] exampleUser) "secret" = true.
Proof.
  apply (proj1 (saved_password_verifies toyHash toyCompare ["password"] exampleUser
                  toy_password_contract)).
  reflexivity.
Defined.

(** ** Requests without an image *)

(** A request that passes the field tests but carries no file for the
    image field is refused before anything is uploaded or stored:
    [addProduct] answers with the bare 401, while [addEvent],
    [uploadSliderImage], [updateSliderImage] and [updateEvent] raise an
    error of status 400. *)
Theorem missing_image_rejected
    (castObjectId : jsval -> option string)
    (newObjectId : list string -> string)
    (uploadOnCloudinary : string -> option cloudinaryResponse)
    (productSchema : product -> outcome product)
    (eventSchema : event -> outcome event)
    (sliderSchema : slider -> outcome slider) req :
  (forall db,
      existsb blank [body_field req "product_name"; body_field req "level";
                     body_field req "ratio_between"] = false ->
      file_path req "productImg" = None ->
      addProduct newObjectId uploadOnCloudinary productSchema req db
        = (Returned (mkResponse 401 (JsonNum 401)), db)) /\
  (forall db,
      existsb blank [body_field req "title"; body_field req "start_date";
                     body_field req "end_date"; body_field req "description"] = false ->
      file_path req "eventImg" = None ->
      addEvent newObjectId uploadOnCloudinary eventSchema req db
        = (Thrown (ApiError 400 "Event Image is required"), db)) /\
  (forall db,
      file_path req "sliderImg" = None ->
      uploadSliderImage newObjectId uploadOnCloudinary sliderSchema req db
        = (Thrown (ApiError 400 "Slider Image is required"), db)) /\
  (forall db,
      truthy (body_field req "id") = true ->
      file_path req "sliderImg" = None ->
      updateSliderImage castObjectId uploadOnCloudinary req db
        = (Thrown (ApiError 400 "Slider Image is required for update"), db)) /\
  (forall db,
      truthy (body_field req "event_id") = true ->
      truthy (body_field req "title") = true ->
      truthy (body_field req "start_date") = true ->
      truthy (body_field req "end_date") = true ->
      truthy (body_field req "description") = true ->
      file_path req "eventImg" = None ->
      updateEvent castObjectId uploadOnCloudinary req db
        = (Thrown (ApiError 400 "Event image is missing"), db)).
Proof.
  repeat split; intros db.
  - intros Hb Hf. unfold addProduct. rewrite Hb, Hf. reflexivity.
  - intros Hb Hf. unfold addEvent. rewrite Hb, Hf. reflexivity.
  - intros Hf. unfold uploadSliderImage. rewrite Hf. reflexivity.
  - intros Hid Hf. unfold updateSliderImage. rewrite Hid, Hf. reflexivity.
  - intros Hid Ht Hs He Hd Hf. unfold updateEvent.
    rewrite Hid, Ht, Hs, He, Hd, Hf. reflexivity.
Qed.

Lemma missing_image_rejected_witness :
  updateSliderImage castAnyString (uploadAnswers "http://img/s.png") (idRequest "s1")
                    [sliderA]
    = (Thrown (ApiError 400 "Slider Image is required for update"), [sliderA]).
Proof.
  apply (proj1 (proj2 (proj2 (proj2
           (missing_image_rejected castAnyString nextObjectId
              (uploadAnswers "http://img/s.png") acceptAll acceptAll acceptAll
              (idRequest "s1"))))) [sliderA]); reflexivity.
Defined.

(** ** The admin route table *)

Import AdminRoutes.

Lemma runStack_unauthenticated stack h :
  runStack false stack h = if existsb is_verifyJWT stack then Unauthorized else Reached h.
Proof.
  induction stack as [|m rest IH]; [reflexivity|].
  destruct m; cbn; [reflexivity | exact IH].
Qed.

Lemma runStack_authenticated stack h : runStack true stack h = Reached h.
Proof.
  induction stack as [|m rest IH]; [reflexivity|].
  destruct m; cbn; exact IH.
Qed.

(** C10: the registrations without [verifyJWT] are the four slider endpoints
    and DELETE /deleteEvent, every other registration has it, and so a
    request that does not authenticate reaches the controller on those five
    and is turned away on all the others. *)
Theorem slider_and_deleteEvent_routes_unauthenticated :
  map route_key (List.filter (fun r => negb (has_verifyJWT r)) router) = unauthenticatedRoutes /\
  map route_key (List.filter has_verifyJWT router) =
    [ (GET, "/home"); (POST, "/addProduct"); (POST, "/addEvent"); (GET, "/getAllProducts");
      (GET, "/getEventRecords"); (POST, "/updateEvent"); (GET, "/getUserRecords");
      (GET, "/withdrawalrequests"); (POST, "/withdrawalrequest/status") ] /\
  NoDup (map route_key router) /\
  map (fun k => dispatch false (fst k) (snd k) router) unauthenticatedRoutes =
    [ Reached uploadSliderImage; Reached getSliderImages; Reached updateSliderImage;
      Reached deleteSliderImage; Reached deleteEventRecord ] /\
  (forall r, In r router ->
     dispatch false (r_method r) (r_path r) router =
       if has_verifyJWT r then Unauthorized else Reached (r_handler r)) /\
  (forall r, In r router ->
     dispatch true (r_method r) (r_path r) router = Reached (r_handler r)).
Proof.
  split; [reflexivity|]. split; [reflexivity|].
  split.
  { apply NoDup_ListNoDup. repeat (constructor; [cbn; intuition discriminate|]).
    constructor. }
  split; [reflexivity|].
  split; intros r Hr; cbn in Hr;
    repeat (destruct Hr as [<- | Hr]; [reflexivity|]); contradiction.
Qed.

(** ** Dispatch of arbitrary requests *)

Lemma express_dispatch_Reached a rm p rs h :
  Express.dispatch a rm p rs = Reached h ->
  exists r, In r rs /\
            Express.handles (r_method r) rm = true /\
            Express.path_matches (r_path r) p = true /\
            r_handler r = h /\
            (a = false -> has_verifyJWT r = false).
Proof.
  induction rs as [|r rest IH]; cbn; [discriminate|].
  destruct (Express.handles (r_method r) rm && Express.path_matches (r_path r) p) eqn:E.
  - apply andb_true_iff in E as [Hm Hp].
    intros H. exists r. split; [left; reflexivity|].
    split; [exact Hm|]. split; [exact Hp|].
    destruct a.
    + rewrite runStack_authenticated in H. split; [congruence | discriminate].
    + rewrite runStack_unauthenticated in H. unfold has_verifyJWT.
      destruct (existsb is_verifyJWT (r_stack r)); [discriminate|].
      split; [congruence | reflexivity].
  - intros H. destruct (IH H) as (r' & Hin & Hrest). exists r'. split; [right; exact Hin|].
    exact Hrest.
Qed.

Lemma express_dispatch_NoRoute a rm p rs :
  Express.dispatch a rm p rs = NoRoute <->
  forall r, In r rs ->
    Express.handles (r_method r) rm && Express.path_matches (r_path r) p = false.
Proof.
  induction rs as [|r rest IH]; cbn; [split; [intros _ r []| reflexivity]|].
  destruct (Express.handles (r_method r) rm && Express.path_matches (r_path r) p) eqn:E.
  - split.
    + destruct a; [rewrite runStack_authenticated | rewrite runStack_unauthenticated];
        [discriminate | destruct (existsb _ _); discriminate].
    + intros H. specialize (H r (or_introl eq_refl)). congruence.
  - rewrite IH. split.
    + intros H r' [<-|Hin]; [exact E | exact (H r' Hin)].
    + intros H r' Hin. apply H. right. exact Hin.
Qed.

Lemma express_dispatch_authenticated rm p rs :
  Express.dispatch true rm p rs <> Unauthorized.
Proof.
  induction rs as [|r rest IH]; cbn; [discriminate|].
  destruct (Express.handles (r_method r) rm && Express.path_matches (r_path r) p);
    [|exact IH].
  rewrite runStack_authenticated. discriminate.
Qed.

(** For every request to the admin router, whatever its method and path
    name, matched as express matches (letters without regard to case, an
    optional final slash, HEAD answered by the GET routes): without
    authentication it reaches a controller only through one of the five
    registrations without [verifyJWT], the four slider endpoints and DELETE
    /deleteEvent; it finds no route exactly when no registration handles its
    method and matches its path; and with authentication it is never
    turned away. So DELETE /deleteevent/ reaches the controller without
    authentication, and HEAD /HOME is turned away. *)
Theorem admin_router_any_request (a : bool) (rm : Express.requestMethod) (p : string) :
  (forall h,
      Express.dispatch false rm p router = Reached h ->
      exists k, In k unauthenticatedRoutes /\
                Express.handles (fst k) rm = true /\
                Express.path_matches (snd k) p = true) /\
  (Express.dispatch a rm p router = NoRoute <->
   forall r, In r router ->
     Express.handles (r_method r) rm && Express.path_matches (r_path r) p = false) /\
  Express.dispatch true rm p router <> Unauthorized /\
  Express.dispatch false Express.DELETE "/deleteevent/" router = Reached deleteEventRecord /\
  Express.dispatch false Express.HEAD "/getSliderImg" router = Reached getSliderImages /\
  Express.dispatch false Express.HEAD "/HOME" router = Unauthorized.
Proof.
  split; [|split; [apply express_dispatch_NoRoute|split;
                   [apply express_dispatch_authenticated|repeat split]]].
  intros h H. apply express_dispatch_Reached in H as (r & Hin & Hm & Hp & _ & Hjwt).
  specialize (Hjwt eq_refl). exists (route_key r).
  split; [|split; [exact Hm | exact Hp]].
  clear Hm Hp. cbn in Hin.
  repeat (destruct Hin as [<- | Hin];
          [first [discriminate Hjwt | cbn; tauto]|]).
  contradiction.
Qed.

(** ** The user route table *)

(** In the user router the registrations without [verifyJWT] are POST
    /register, /login, /sendOtp and /refresh-token, and the eleven others
    carry it. At its registered method and path every route is reached with
    authentication, and without authentication those four are reached and
    the others turned away. *)
Theorem user_router_public_routes :
  map UserRoutes.route_key
      (List.filter (fun r => negb (UserRoutes.has_verifyJWT r)) UserRoutes.router)
    = [ (UserRoutes.POST, "/register"); (UserRoutes.POST, "/login");
        (UserRoutes.POST, "/sendOtp"); (UserRoutes.POST, "/refresh-token") ] /\
  map UserRoutes.route_key (List.filter UserRoutes.has_verifyJWT UserRoutes.router)
    = [ (UserRoutes.POST, "/usersReciveMoney"); (UserRoutes.POST, "/receiveMoney");
        (UserRoutes.PATCH, "/avatar"); (UserRoutes.POST, "/withdrawalrequest");
        (UserRoutes.GET, "/getwithdrawalrequest");
        (UserRoutes.POST, "/withdrawalrequest/status");
        (UserRoutes.DELETE, "/withdrawalrequest/delete"); (UserRoutes.POST, "/logout");
        (UserRoutes.POST, "/change-password"); (UserRoutes.GET, "/current-user");
        (UserRoutes.PATCH, "/update-account") ] /\
  List.NoDup (map UserRoutes.route_key UserRoutes.router) /\
  (forall r, In r UserRoutes.router ->
     UserRoutes.dispatch false (UserRoutes.r_method r) (UserRoutes.r_path r)
                         UserRoutes.router
       = if UserRoutes.has_verifyJWT r then UserRoutes.Unauthorized
         else UserRoutes.Reached (UserRoutes.r_handler r)) /\
  (forall r, In r UserRoutes.router ->
     UserRoutes.dispatch true (UserRoutes.r_method r) (UserRoutes.r_path r)
                         UserRoutes.router
       = UserRoutes.Reached (UserRoutes.r_handler r)).
Proof.
  split; [reflexivity|]. split; [reflexivity|].
  split.
  { repeat (constructor; [cbn; intuition discriminate|]). constructor. }
  split; intros r Hr; cbn in Hr;
    repeat (destruct Hr as [<- | Hr]; [reflexivity|]); contradiction.
Qed.
